(** * Audio-to-embedding Beam DoFns: a shallow embedding and its properties

    Source: [non_semantic_speech_benchmark/data_prep/beam_dofns.py].

    The three DoFns ([ComputeEmbeddingMapFn],
    [ComputeMultipleEmbeddingsFromSingleModel],
    [ChunkAudioAndComputeEmbeddings]) are Python generators that read a
    [tf.train.Example], call pluggable collaborators (feature function, model
    call, resampler), update Beam metrics, raise exceptions and yield output
    tuples.  They are embedded as computations in a small generator monad
    [run] that records, in order, the collaborator calls and metric updates
    (the log), the values yielded so far, and the outcome (a value or the
    exception that ended the run).  [logging.info] calls are left out: they
    only format values that are already known to be well formed. *)

From Stdlib Require Import ZArith List String Ascii Bool Lia.
From Stdlib Require Import DecimalString DecimalPos DecimalZ.
From Stdlib Require Import Floats.SpecFloat.
From stdpp Require Import gmap strings list fin_maps.

Open Scope Z_scope.

(** ** Python values *)

(** Exceptions raised by the code or by the Python/numpy primitives it uses.
    A [ValueError] carries the constant prefix of its message. *)
Inductive exn : Type :=
| ValueError (msg : string)
| AssertionError
| KeyError (key : string)
| IndexError
| OverflowError
| AttributeError (attr : string)
| AxisError
| CollaboratorError (what : string).

(** [bytes] objects are strings of 8-bit characters. *)
Abbreviation bytes := string (only parsing).

(** [str(n)] for a Python [int]: the canonical decimal numeral. *)
Definition py_str_int (n : Z) : string :=
  NilZero.string_of_int (Z.to_int n).

(** *** The decimal form of an integer, as the spec words it

    Not a translation of the source: the spec speaks of "the decimal
    byte-string form" of an integer, and the definitions below say what
    that is by reading a byte string as a decimal numeral, digit by digit,
    without going through [py_str_int].  What [_get_label] returns for an
    integer-encoded label is compared with them. *)

(** The value of one byte as a decimal digit: its distance from the
    byte of the digit 0, for the ten bytes from there on; no other byte
    has one. *)
Definition decimal_digit (c : ascii) : option Z :=
  let code := Z.of_N (N_of_ascii c) in
  let zero := Z.of_N (N_of_ascii "0") in
  if (zero <=? code) && (code <? zero + 10) then Some (code - zero)
  else None.

(** Place-value reading of a run of digits, most significant first:
    each digit multiplies what was read so far by ten and adds itself. *)
Fixpoint decimal_digits (acc : Z) (s : string) : option Z :=
  match s with
  | EmptyString => Some acc
  | String c s' =>
      match decimal_digit c with
      | Some d => decimal_digits (10 * acc + d) s'
      | None => None
      end
  end.

(** A numeral has at least one digit and, unless it is the single digit
    of zero, does not start with the digit 0. *)
Definition no_leading_zero (s : string) : bool :=
  match s with
  | EmptyString => false
  | String _ EmptyString => true
  | String c (String _ _) => negb (Ascii.eqb c "0")
  end.

(** The natural number that a run of digits denotes. *)
Definition spec_decimal_natural (s : string) : option Z :=
  if no_leading_zero s then decimal_digits 0 s else None.

(** The integer that a byte string denotes as a decimal numeral: digits
    without a leading zero, after a minus sign exactly for the negative
    integers (there is no "-0", no "+", no blank). *)
Definition spec_decimal_value (s : bytes) : option Z :=
  match s with
  | EmptyString => None
  | String c s' =>
      if Ascii.eqb c "-" then
        match spec_decimal_natural s' with
        | Some m => if 0 <? m then Some (- m) else None
        | None => None
        end
      else spec_decimal_natural s
  end.

(** Truthiness of the Python values that the code tests with [if x]. *)
Definition truthy_str (s : string) : bool :=
  match s with EmptyString => false | String _ _ => true end.

Definition truthy_opt_str (o : option string) : bool :=
  match o with None => false | Some s => truthy_str s end.

Definition truthy_int (n : Z) : bool := negb (n =? 0).

Definition truthy_opt_int (o : option Z) : bool :=
  match o with None => false | Some n => truthy_int n end.

Definition truthy_list {A} (l : list A) : bool :=
  match l with [] => false | _ :: _ => true end.

Definition is_None {A} (o : option A) : bool :=
  match o with None => true | Some _ => false end.

(** [int(x)] for a Python [float]: truncation toward zero ([Z.quot]) of
    the value [(-1)^s * m * 2^e]; NaN and the infinities raise. *)
Definition py_int_of_float (x : spec_float) : exn + Z :=
  match x with
  | S754_zero _ => inr 0
  | S754_nan => inl (ValueError "cannot convert float NaN to integer")
  | S754_infinity _ => inl OverflowError
  | S754_finite s m e =>
      let sm := if s then Z.neg m else Z.pos m in
      inr (if 0 <=? e then sm * 2 ^ e else Z.quot sm (2 ^ (- e)))
  end.

(** ** [tf.train.Example] *)

(** A [tf.train.Feature] is a protobuf [oneof]: at most one of the three
    lists is set.  Reading a list that is not the set one gives the empty
    list. *)
Inductive Feature : Type :=
| kind_not_set
| bytes_list (value : list bytes)
| float_list (value : list spec_float)
| int64_list (value : list Z).

Definition bytes_list_value (f : Feature) : list bytes :=
  match f with bytes_list v => v | _ => [] end.

Definition float_list_value (f : Feature) : list spec_float :=
  match f with float_list v => v | _ => [] end.

Definition int64_list_value (f : Feature) : list Z :=
  match f with int64_list v => v | _ => [] end.

(** [ex.features.feature]: a map from feature names to features. *)
Abbreviation Example := (gmap string Feature) (only parsing).

(** ** numpy arrays *)

Module np.

Inductive dtype : Type :=
| float16 | float32 | float64 | int16 | int32 | int64 | bool_ | object_.

Definition dtype_eqb (a b : dtype) : bool :=
  match a, b with
  | float16, float16 | float32, float32 | float64, float64
  | int16, int16 | int32, int32 | int64, int64
  | bool_, bool_ | object_, object_ => true
  | _, _ => false
  end.

(** An array in C order: element type tag, shape, and the flat buffer.  The
    scalar type [F] is abstract. *)
Record ndarray (F : Type) : Type := mk_ndarray {
  arr_dtype : dtype;
  shape : list nat;
  data : list F
}.
Arguments mk_ndarray {F} _ _ _.
Arguments arr_dtype {F} _.
Arguments shape {F} _.
Arguments data {F} _.

Definition prod_shape (s : list nat) : nat := fold_right Nat.mul 1%nat s.

Definition ndim {F} (a : ndarray F) : nat := length (shape a).

Definition size {F} (a : ndarray F) : nat := prod_shape (shape a).

(** The buffer holds exactly [size] elements. *)
Definition wf_ndarray {F} (a : ndarray F) : Prop :=
  length (data a) = size a.

(** [a.shape[i]] *)
Definition shape_at {F} (a : ndarray F) (i : nat) : exn + nat :=
  match shape a !! i with
  | Some n => inr n
  | None => inl IndexError
  end.

(** [a[i]] for an integer [0 <= i]: the [i]-th slice along the first axis. *)
Definition getitem {F} (a : ndarray F) (i : nat) : exn + ndarray F :=
  match shape a with
  | [] => inl IndexError
  | n :: rest =>
      if (i <? n)%nat then
        let stride := prod_shape rest in
        inr (mk_ndarray (arr_dtype a) rest
               (firstn stride (skipn (i * stride) (data a))))
      else inl IndexError
  end.

(** [np.expand_dims(a, axis=0)] *)
Definition expand_dims0 {F} (a : ndarray F) : ndarray F :=
  mk_ndarray (arr_dtype a) (1%nat :: shape a) (data a).

(** Result dtype of [np.mean]: inexact types are kept, the others are
    averaged in [float64]. *)
Definition mean_dtype (d : dtype) : dtype :=
  match d with
  | float16 => float16
  | float32 => float32
  | object_ => object_
  | _ => float64
  end.

Section Mean.
Context {F : Type}.
(** The arithmetic mean of one lane, as numpy computes it in the array's
    floating-point type. *)
Variable reduce_mean : list F -> F.

(** The [n] elements of the lane at outer index [o] and inner index [j]
    of a buffer laid out as (outer, n, inner). *)
Definition lane (buf : list F) (n inner o j : nat) : list F :=
  flat_map (fun i => firstn 1 (skipn ((o * n + i) * inner + j) buf))
           (seq 0 n).

(** [np.mean(a, axis=axis, keepdims=keepdims)] *)
Definition mean (a : ndarray F) (axis : nat) (keepdims : bool)
  : exn + ndarray F :=
  match shape a !! axis with
  | None => inl AxisError
  | Some n =>
      let outer := prod_shape (firstn axis (shape a)) in
      let inner := prod_shape (skipn (S axis) (shape a)) in
      inr (mk_ndarray (mean_dtype (arr_dtype a))
             (firstn axis (shape a)
                ++ (if keepdims then [1%nat] else [])
                ++ skipn (S axis) (shape a))
             (flat_map (fun o =>
                map (fun j => reduce_mean (lane (data a) n inner o j))
                    (seq 0 inner))
                (seq 0 outer)))
  end.
End Mean.

(** [np.pad(a, [0, delta], mode='symmetric')] on a 1-D array: the array is
    followed by its mirror image (edge sample included), then by itself
    again, and so on, until [delta] samples have been appended. *)
Fixpoint take_cyclic {A} (k : nat) (cur block : list A) : list A :=
  match k with
  | O => []
  | S k' =>
      match cur with
      | c :: cur' => c :: take_cyclic k' cur' block
      | [] =>
          match block with
          | [] => []
          | c :: cur' => c :: take_cyclic k' cur' block
          end
      end
  end.

Definition symmetric_tail {A} (x : list A) (delta : nat) : list A :=
  take_cyclic delta [] (reverse x ++ x).

Definition pad_symmetric_after {F} (a : ndarray F) (delta : nat)
  : exn + ndarray F :=
  match shape a with
  | [n] =>
      match delta, n with
      | O, _ => inr a
      | S _, O =>
          inl (ValueError "can't extend empty axis 0 using modes other than 'constant' or 'empty'")
      | S _, S _ =>
          inr (mk_ndarray (arr_dtype a) [(n + delta)%nat]
                 (data a ++ symmetric_tail (data a) delta))
      end
  | _ => inl (CollaboratorError "np.pad: pad_width [0, delta] on a non 1-D array")
  end.

(** Index of the source sample that numpy's symmetric mode puts at
    position [i] of the padded array. *)
Definition mirror_index (n i : nat) : nat :=
  let j := (i mod (2 * n))%nat in
  if (j <? n)%nat then j else (2 * n - 1 - j)%nat.

End np.

(** ** The generator monad *)

(** What a run has done so far: the log of collaborator calls and metric
    updates, the tuples yielded, and how it ended. *)
Record run (E Y A : Type) : Type := Run {
  log : list E;
  yielded : list Y;
  outcome : exn + A
}.
Arguments Run {E Y A} _ _ _.
Arguments log {E Y A} _.
Arguments yielded {E Y A} _.
Arguments outcome {E Y A} _.

Definition ret {E Y A} (a : A) : run E Y A := Run [] [] (inr a).

Definition raise {E Y A} (e : exn) : run E Y A := Run [] [] (inl e).

Definition bind {E Y A B} (m : run E Y A) (k : A -> run E Y B) : run E Y B :=
  match outcome m with
  | inl e => Run (log m) (yielded m) (inl e)
  | inr a =>
      Run (log m ++ log (k a)) (yielded m ++ yielded (k a)) (outcome (k a))
  end.

Definition tell {E Y} (ev : E) : run E Y unit := Run [ev] [] (inr tt).

Definition yield_ {E Y} (y : Y) : run E Y unit := Run [] [y] (inr tt).

(** A primitive that returns or raises without any other effect. *)
Definition lift {E Y A} (r : exn + A) : run E Y A := Run [] [] r.

Definition assert_ {E Y} (b : bool) : run E Y unit :=
  if b then ret tt else raise AssertionError.

Notation "'let*' x ':=' m 'in' k" := (bind m (fun x => k))
  (at level 10, x name, m at level 100, k at level 200, only parsing).
Notation "'let*' ' pat ':=' m 'in' k" :=
  (bind m (fun x => match x with pat => k end))
  (at level 10, pat pattern, m at level 100, k at level 200, only parsing).

(** [for x in l: body x] *)
Fixpoint for_each {E Y A} (l : list A) (body : A -> run E Y unit)
  : run E Y unit :=
  match l with
  | [] => ret tt
  | x :: rest => let* _ := body x in for_each rest body
  end.

(** [[body x for x in l]] *)
Fixpoint list_comp {E Y A B} (l : list A) (body : A -> run E Y B)
  : run E Y (list B) :=
  match l with
  | [] => ret []
  | x :: rest =>
      let* y := body x in
      let* ys := list_comp rest body in
      ret (y :: ys)
  end.

(** ** Collaborators *)

(** A Python object returned by a pluggable function: an [np.ndarray] or
    something else, of which only the type name matters. *)
Inductive pyobj (F : Type) : Type :=
| PyNdarray (a : np.ndarray F)
| PyOther (type_name : string).
Arguments PyNdarray {F} _.
Arguments PyOther {F} _.

(** The [output_key] argument: one key (a name, or an index for TFLite) for
    the single-embedding DoFn, a list of names for the others. *)
Inductive pykey : Type :=
| KeyStr (s : string)
| KeyInt (i : Z)
| KeyList (l : list string).

Inductive event (F : Type) : Type :=
| MetricsDistributionUpdate (namespace name : string) (value : Z)
| MetricsCounterInc (namespace name : string)
| ResampleCall (audio : np.ndarray F) (orig_sr target_sr : Z)
| FeatureFnCall (audio : np.ndarray F) (sample_rate : Z)
| ModuleCall (model_input : np.ndarray F).
Arguments MetricsDistributionUpdate {F} _ _ _.
Arguments MetricsCounterInc {F} _ _.
Arguments ResampleCall {F} _ _ _.
Arguments FeatureFnCall {F} _ _.
Arguments ModuleCall {F} _.

Definition is_ResampleCall {F} (ev : event F) : bool :=
  match ev with ResampleCall _ _ _ => true | _ => false end.

Definition is_ModuleCall {F} (ev : event F) : bool :=
  match ev with ModuleCall _ => true | _ => false end.

(** The module-level imports of [beam_dofns.py] that are not in this file:
    [librosa.core.resample], the helpers of [data_prep_utils] (imported as
    [utils]) and the floating-point reduction inside [np.mean]. *)
Record Imports (F Handle : Type) : Type := {
  librosa_core_resample :
    np.ndarray F -> Z -> Z -> exn + np.ndarray F;
  tfexample_audio_to_npfloat32 :
    Example -> string -> bool -> string -> exn + np.ndarray F;
  get_chunked_audio_fn :
    np.ndarray F -> Z -> exn + np.ndarray F;
  samples_to_embedding_tfhub :
    np.ndarray F -> Z -> Handle -> pykey -> string -> exn + pyobj F;
  samples_to_embedding_tfhub_w2v2 :
    np.ndarray F -> Handle -> exn + gmap string (np.ndarray F);
  reduce_mean : list F -> F
}.
Arguments librosa_core_resample {F Handle} _ _ _ _.
Arguments tfexample_audio_to_npfloat32 {F Handle} _ _ _ _ _.
Arguments get_chunked_audio_fn {F Handle} _ _ _.
Arguments samples_to_embedding_tfhub {F Handle} _ _ _ _ _ _.
Arguments samples_to_embedding_tfhub_w2v2 {F Handle} _ _ _.
Arguments reduce_mean {F Handle} _ _.

(** ** Module-level helpers *)

(** [_get_label(label_key, ex)] *)
Definition _get_label (label_key : string) (ex : Example) : exn + bytes :=
  match ex !! label_key with
  | None => inl (ValueError "label key not found: ")
  | Some lbl_feat =>
      match int64_list_value lbl_feat with
      | n :: _ =>
          let label := py_str_int n in
          if truthy_str label then inr label else inl AssertionError
      | [] =>
          match bytes_list_value lbl_feat with
          | [] => inl AssertionError
          | label :: _ =>
              if truthy_str label then inr label else inl AssertionError
          end
      end
  end.

(** [_get_speaker_id(speaker_id_key, ex)] *)
Definition _get_speaker_id (speaker_id_key : string) (ex : Example)
  : exn + bytes :=
  match ex !! speaker_id_key with
  | None => inl (ValueError "speaker_id key not found: ")
  | Some feat =>
      match bytes_list_value feat with
      | [] => inl IndexError
      | speaker_id :: _ =>
          if truthy_str speaker_id then inr speaker_id
          else inl AssertionError
      end
  end.

(** [if a.ndim == 1: a = np.expand_dims(a, axis=0)], the idiom with which
    both multi-embedding [process] methods turn unchunked audio into a
    batch of one chunk. *)
Definition expand_if_1d {F} (a : np.ndarray F) : np.ndarray F :=
  if (np.ndim a =? 1)%nat then np.expand_dims0 a else a.

(** ** The DoFns *)

Section Pipeline.
Context {F Mod Handle : Type}.
Variable libs : Imports F Handle.

Local Abbreviation ndarray := (np.ndarray F).
Local Abbreviation M Y A := (run (event F) Y A).

(** *** [ComputeEmbeddingMapFn] *)

Record ComputeEmbeddingMapFn : Type := {
  _name : string;
  _module : Mod;
  _output_key : pykey;
  _audio_key : string;
  _sample_rate_key : option string;
  _sample_rate : option Z;
  _average_over_time : bool;
  _feature_fn : option (ndarray -> Z -> exn + pyobj F);
  _normalize_to_pm_one : bool;
  _model_input_min_length : option Z;
  _target_sample_rate : Z;
  _module_call_fn :
    ndarray -> Z -> Handle -> pykey -> string -> exn + pyobj F;
  _setup_fn : Mod -> Handle;
  post_setup_module : option Handle
}.

(** [ComputeEmbeddingMapFn.__init__]; [post_setup_module] is not set
    before [setup]. *)
Definition ComputeEmbeddingMapFn__init__
    (name : string) (module : Mod) (output_key : pykey)
    (audio_key : string) (sample_rate_key : option string)
    (sample_rate : option Z) (average_over_time : bool)
    (feature_fn : option (ndarray -> Z -> exn + pyobj F))
    (normalize_to_pm_one : bool) (model_input_min_length : option Z)
    (target_sample_rate : Z)
    (module_call_fn :
       ndarray -> Z -> Handle -> pykey -> string -> exn + pyobj F)
    (setup_fn : Mod -> Handle)
  : exn + ComputeEmbeddingMapFn :=
  if negb (xorb (is_None sample_rate_key) (is_None sample_rate)) then
    inl (ValueError "Must have exactly one sample_rate_key or sample_rate: ")
  else
    inr {| _name := name; _module := module; _output_key := output_key;
           _audio_key := audio_key; _sample_rate_key := sample_rate_key;
           _sample_rate := sample_rate;
           _average_over_time := average_over_time;
           _feature_fn := feature_fn;
           _normalize_to_pm_one := normalize_to_pm_one;
           _model_input_min_length := model_input_min_length;
           _target_sample_rate := target_sample_rate;
           _module_call_fn := module_call_fn;
           _setup_fn := setup_fn;
           post_setup_module := None |}.

Definition setup (self : ComputeEmbeddingMapFn) : ComputeEmbeddingMapFn :=
  {| _name := _name self; _module := _module self;
     _output_key := _output_key self; _audio_key := _audio_key self;
     _sample_rate_key := _sample_rate_key self;
     _sample_rate := _sample_rate self;
     _average_over_time := _average_over_time self;
     _feature_fn := _feature_fn self;
     _normalize_to_pm_one := _normalize_to_pm_one self;
     _model_input_min_length := _model_input_min_length self;
     _target_sample_rate := _target_sample_rate self;
     _module_call_fn := _module_call_fn self;
     _setup_fn := _setup_fn self;
     post_setup_module := Some (_setup_fn self (_module self)) |}.

(** Reading [self.post_setup_module]. *)
Definition get_post_setup_module {Y} (self : ComputeEmbeddingMapFn)
  : M Y Handle :=
  match post_setup_module self with
  | Some h => ret h
  | None => raise (AttributeError "post_setup_module")
  end.

Definition _read_audio_from_tfexample {Y} (self : ComputeEmbeddingMapFn)
    (ex : Example) (k : string) (normalize_to_pm_one : bool)
  : M Y ndarray :=
  match ex !! _audio_key self with
  | None => raise (ValueError "Audio key not found: ")
  | Some _ =>
      let* audio :=
        lift (tfexample_audio_to_npfloat32 libs ex (_audio_key self)
                normalize_to_pm_one k) in
      let* _ := assert_ (np.ndim audio =? 1)%nat in
      if (np.size audio =? 0)%nat then
        raise (ValueError "No audio found: ")
      else
        let* _ := tell (MetricsDistributionUpdate
                          "computed-embedding-audio" "length"
                          (Z.of_nat (np.size audio))) in
        ret audio
  end.

Definition _read_sample_rate_from_tfexample {Y}
    (self : ComputeEmbeddingMapFn) (ex : Example) : M Y Z :=
  if truthy_opt_str (_sample_rate_key self) then
    let key := default EmptyString (_sample_rate_key self) in
    match ex !! key with
    | None => raise (ValueError "Sample rate key not found: ")
    | Some sr_feat =>
        if negb (truthy_int
                   (Z.lxor (Z.of_nat (length (float_list_value sr_feat)))
                           (Z.of_nat (length (int64_list_value sr_feat)))))
        then raise (ValueError
               "Expected exactly one of `float_list` and `int64_list`: ")
        else
          match float_list_value sr_feat with
          | x :: _ => lift (py_int_of_float x)
          | [] =>
              match int64_list_value sr_feat with
              | n :: _ => ret n
              | [] => raise IndexError
              end
          end
    end
  else
    if negb (truthy_opt_int (_sample_rate self)) then
      raise (ValueError
        "If `sample_rate_key` not provided, must provide `sample_rate`.")
    else ret (default 0 (_sample_rate self)).

Definition resample {Y} (self : ComputeEmbeddingMapFn) (audio : ndarray)
    (sample_rate target_sr : Z) : M Y ndarray :=
  let* _ := tell (ResampleCall audio sample_rate target_sr) in
  lift (librosa_core_resample libs audio sample_rate target_sr).

Definition _audio_to_features {Y} (self : ComputeEmbeddingMapFn)
    (audio : ndarray) (sample_rate : Z) : M Y ndarray :=
  match _feature_fn self with
  | Some feature_fn =>
      let* _ := tell (FeatureFnCall audio sample_rate) in
      let* model_input := lift (feature_fn audio sample_rate) in
      match model_input with
      | PyOther _ => raise (ValueError "Expected ndarray, got ")
      | PyNdarray model_input =>
          if negb (np.dtype_eqb (np.arr_dtype model_input) np.float32)
          then raise (ValueError "Should be float32, was: ")
          else ret model_input
      end
  | None =>
      let model_input := audio in
      if truthy_opt_int (_model_input_min_length self)
         && (Z.of_nat (np.size model_input)
             <? default 0 (_model_input_min_length self))
      then
        let delta := default 0 (_model_input_min_length self)
                     - Z.of_nat (np.size model_input) in
        lift (np.pad_symmetric_after model_input (Z.to_nat delta))
      else ret model_input
  end.

Definition read_and_preprocess_audio {Y} (self : ComputeEmbeddingMapFn)
    (k : string) (ex : Example) : M Y (ndarray * Z) :=
  let* audio :=
    _read_audio_from_tfexample self ex k (_normalize_to_pm_one self) in
  let* sample_rate := _read_sample_rate_from_tfexample self ex in
  let* '(audio, sample_rate) :=
    (if negb (sample_rate =? _target_sample_rate self) then
       let* audio :=
         resample self audio sample_rate (_target_sample_rate self) in
       ret (audio, _target_sample_rate self)
     else ret (audio, sample_rate)) in
  let* model_input := _audio_to_features self audio sample_rate in
  ret (model_input, sample_rate).

Definition ComputeEmbeddingMapFn_process (self : ComputeEmbeddingMapFn)
    (k_v : string * Example) : M (string * ndarray) unit :=
  let '(k, ex) := k_v in
  let* '(model_input, sample_rate) :=
    read_and_preprocess_audio self k ex in
  let* handle := get_post_setup_module self in
  let* _ := tell (ModuleCall model_input) in
  let* embedding_2d :=
    lift (_module_call_fn self model_input sample_rate handle
            (_output_key self) (_name self)) in
  match embedding_2d with
  | PyOther _ => raise (ValueError "`embedding_2d` wrong type: ")
  | PyNdarray embedding_2d =>
      if negb (np.ndim embedding_2d =? 2)%nat then
        raise (ValueError "`embedding_2d` wrong dims: ")
      else if negb (np.dtype_eqb (np.arr_dtype embedding_2d) np.float32)
      then raise (ValueError "`embedding_2d` wrong type: ")
      else
        let* _ := tell (MetricsCounterInc "computed-embedding"
                          (_name self)) in
        let* n0 := lift (np.shape_at embedding_2d 0) in
        let* _ := tell (MetricsDistributionUpdate
                          ("computed-embedding-" +:+ _name self) "length"
                          (Z.of_nat n0)) in
        let* embedding :=
          (if _average_over_time self then
             lift (np.mean (reduce_mean libs) embedding_2d 0 true)
           else ret embedding_2d) in
        yield_ (k, embedding)
  end.

(** *** [ComputeMultipleEmbeddingsFromSingleModel] *)

(** The subclass adds fields to the inherited ones.  Its [__init__]
    replaces [self._module_call_fn] by a function of another signature,
    kept here in a field of its own, and checks that [output_key] is a
    list, kept as [_output_keys] (in the source [_output_key] and
    [_output_keys] are the same list object). *)
Record ComputeMultipleEmbeddingsFromSingleModel : Type := {
  super_ : ComputeEmbeddingMapFn;
  _chunk_len : option Z;
  _output_keys : list string;
  _embedding_names : list string;
  _embedding_len : option Z;
  _module_call_fn2 : ndarray -> Handle -> exn + gmap string ndarray
}.

Definition ComputeMultipleEmbeddingsFromSingleModel__init__
    (name : string) (module : Mod) (output_key : pykey)
    (audio_key : string) (sample_rate_key : option string)
    (sample_rate : option Z) (average_over_time : bool)
    (feature_fn : option (ndarray -> Z -> exn + pyobj F))
    (normalize_to_pm_one : bool) (model_input_min_length : option Z)
    (target_sample_rate : Z) (setup_fn : Mod -> Handle)
    (embedding_names : list string) (chunk_len : option Z)
    (embedding_length : option Z)
    (module_call_fn : ndarray -> Handle -> exn + gmap string ndarray)
  : exn + ComputeMultipleEmbeddingsFromSingleModel :=
  match ComputeEmbeddingMapFn__init__ name module output_key audio_key
          sample_rate_key sample_rate average_over_time feature_fn
          normalize_to_pm_one model_input_min_length target_sample_rate
          (samples_to_embedding_tfhub libs) setup_fn with
  | inl e => inl e
  | inr base =>
      match _output_key base with
      | KeyList output_keys =>
          inr {| super_ := base; _chunk_len := chunk_len;
                 _output_keys := output_keys;
                 _embedding_names := embedding_names;
                 _embedding_len := embedding_length;
                 _module_call_fn2 := module_call_fn |}
      | _ => inl AssertionError
      end
  end.

Definition tfex_to_chunked_audio {Y}
    (self : ComputeMultipleEmbeddingsFromSingleModel)
    (k : string) (ex : Example) : M Y (ndarray * Z) :=
  let* '(model_input, sample_rate) :=
    read_and_preprocess_audio (super_ self) k ex in
  let* model_input :=
    (if truthy_opt_int (_chunk_len self) then
       let chunk_len := default 0 (_chunk_len self) in
       let* n0 := lift (np.shape_at model_input 0) in
       if chunk_len <=? Z.of_nat n0 then
         lift (get_chunked_audio_fn libs model_input chunk_len)
       else ret model_input
     else ret model_input) in
  ret (model_input, sample_rate).

(** The body of the loop over [zip(self._embedding_names,
    self._output_keys)], threading [out_dict]. *)
Fixpoint embeddings_loop {Y}
    (self : ComputeMultipleEmbeddingsFromSingleModel)
    (tf_out : gmap string ndarray) (pairs : list (string * string))
    (out_dict : gmap string ndarray) : M Y (gmap string ndarray) :=
  match pairs with
  | [] => ret out_dict
  | (name, output_key) :: rest =>
      match tf_out !! output_key with
      | None => raise (ValueError "Output key not recognized: ")
      | Some cur_emb =>
          if negb (np.ndim cur_emb =? 3)%nat then
            raise (ValueError "Wrong output dim size: ")
          else if negb (np.dtype_eqb (np.arr_dtype cur_emb) np.float32)
          then raise (ValueError "Wrong dtype: ")
          else
            let* embedding_2d :=
              lift (np.mean (reduce_mean libs) cur_emb 0 false) in
            let* embedding_2d :=
              lift (np.mean (reduce_mean libs) embedding_2d 0 true) in
            let* _ := assert_ (np.ndim embedding_2d =? 2)%nat in
            let* _ := assert_ (np.dtype_eqb (np.arr_dtype embedding_2d)
                                 np.float32) in
            let* _ :=
              (if _average_over_time (super_ self) then
                 let* s0 := lift (np.shape_at embedding_2d 0) in
                 if negb (s0 =? 1)%nat then
                   raise (ValueError "Wrong batch dim: ")
                 else ret tt
               else ret tt) in
            let* _ :=
              (if truthy_opt_int (_embedding_len self) then
                 let* s1 := lift (np.shape_at embedding_2d 1) in
                 if negb (Z.of_nat s1 =? default 0 (_embedding_len self))
                 then raise (ValueError "Wrong output dim: ")
                 else ret tt
               else ret tt) in
            embeddings_loop self tf_out rest
              (<[name := embedding_2d]> out_dict)
      end
  end.

Definition ComputeMultipleEmbeddingsFromSingleModel_process
    (self : ComputeMultipleEmbeddingsFromSingleModel)
    (k_v : string * Example)
  : M (string * Example * gmap string ndarray) unit :=
  let '(k, ex) := k_v in
  let* '(model_input, _) := tfex_to_chunked_audio self k ex in
  let model_input := expand_if_1d model_input in
  let* handle := get_post_setup_module (super_ self) in
  let* _ := tell (ModuleCall model_input) in
  let* tf_out := lift (_module_call_fn2 self model_input handle) in
  let* out_dict :=
    embeddings_loop self tf_out
      (combine (_embedding_names self) (_output_keys self)) ∅ in
  yield_ (k, ex, out_dict).

(** *** [ChunkAudioAndComputeEmbeddings] *)

Record ChunkAudioAndComputeEmbeddings : Type := {
  super_2 : ComputeMultipleEmbeddingsFromSingleModel;
  _label_key : option string;
  _speaker_id_key : option string;
  _compute_embeddings_on_chunked_audio : bool
}.

Definition ChunkAudioAndComputeEmbeddings__init__
    (name : string) (module : Mod) (output_key : pykey)
    (audio_key : string) (sample_rate_key : option string)
    (sample_rate : option Z) (average_over_time : bool)
    (feature_fn : option (ndarray -> Z -> exn + pyobj F))
    (normalize_to_pm_one : bool) (model_input_min_length : option Z)
    (target_sample_rate : Z) (setup_fn : Mod -> Handle)
    (embedding_names : list string) (chunk_len : option Z)
    (embedding_length : option Z)
    (label_key speaker_id_key : option string)
    (module_call_fn : ndarray -> Handle -> exn + gmap string ndarray)
    (compute_embeddings_on_chunked_audio : bool)
  : exn + ChunkAudioAndComputeEmbeddings :=
  match ComputeMultipleEmbeddingsFromSingleModel__init__ name module
          output_key audio_key sample_rate_key sample_rate
          average_over_time feature_fn normalize_to_pm_one
          model_input_min_length target_sample_rate setup_fn
          embedding_names chunk_len embedding_length
          (samples_to_embedding_tfhub_w2v2 libs) with
  | inl e => inl e
  | inr base =>
      inr {| super_2 :=
               {| super_ := super_ base; _chunk_len := _chunk_len base;
                  _output_keys := _output_keys base;
                  _embedding_names := _embedding_names base;
                  _embedding_len := _embedding_len base;
                  _module_call_fn2 := module_call_fn |};
             _label_key := label_key;
             _speaker_id_key := speaker_id_key;
             _compute_embeddings_on_chunked_audio :=
               compute_embeddings_on_chunked_audio |}
  end.

(** The assertions on one element of [embedding_3ds]. *)
Definition check_embedding_3d {Y} (self : ChunkAudioAndComputeEmbeddings)
    (chnkd_audio x : ndarray) : M Y unit :=
  let* _ := assert_ (np.ndim x =? 3)%nat in
  let* _ := assert_ (np.dtype_eqb (np.arr_dtype x) np.float32) in
  let* x0 := lift (np.shape_at x 0) in
  let* c0 := lift (np.shape_at chnkd_audio 0) in
  let* _ := assert_ (x0 =? c0)%nat in
  let* _ :=
    (if truthy_opt_int (_embedding_len (super_2 self)) then
       let* x2 := lift (np.shape_at x 2) in
       assert_ (Z.of_nat x2 =? default 0 (_embedding_len (super_2 self)))
     else ret tt) in
  if _average_over_time (super_ (super_2 self)) then
    let* x1 := lift (np.shape_at x 1) in
    assert_ (x1 =? 1)%nat
  else ret tt.

(** [{name: x[i] for name, x in zip(names, embedding_3ds)}] *)
Fixpoint slice_dict {Y} (i : nat) (pairs : list (string * ndarray))
    (out_dict : gmap string ndarray) : M Y (gmap string ndarray) :=
  match pairs with
  | [] => ret out_dict
  | (name, x) :: rest =>
      let* xi := lift (np.getitem x i) in
      slice_dict i rest (<[name := xi]> out_dict)
  end.

Definition ChunkAudioAndComputeEmbeddings_process
    (self : ChunkAudioAndComputeEmbeddings) (k_v : string * Example)
  : M (string * ndarray * option bytes * option bytes
       * gmap string ndarray) unit :=
  let '(k, ex) := k_v in
  let* '(chnkd_audio, _) := tfex_to_chunked_audio (super_2 self) k ex in
  let chnkd_audio := expand_if_1d chnkd_audio in
  let* model_input :=
    (if _compute_embeddings_on_chunked_audio self then ret chnkd_audio
     else
       let* '(model_input, _) :=
         read_and_preprocess_audio (super_ (super_2 self)) k ex in
       ret model_input) in
  let* handle := get_post_setup_module (super_ (super_2 self)) in
  let* _ := tell (ModuleCall chnkd_audio) in
  let* tf_out :=
    lift (_module_call_fn2 (super_2 self) chnkd_audio handle) in
  let* cur_embs :=
    list_comp (_output_keys (super_2 self))
      (fun okey => match tf_out !! okey with
                   | Some t => ret t
                   | None => raise (KeyError okey)
                   end) in
  let* _ :=
    for_each cur_embs
      (fun emb => if negb (np.ndim emb =? 3)%nat then
                    raise (ValueError "Wrong output dims: ")
                  else ret tt) in
  let* embedding_3ds :=
    (if _average_over_time (super_ (super_2 self)) then
       list_comp cur_embs
         (fun x => lift (np.mean (reduce_mean libs) x 1 true))
     else ret cur_embs) in
  let* _ := for_each embedding_3ds (check_embedding_3d self chnkd_audio) in
  let* label :=
    (if truthy_opt_str (_label_key self) then
       let* l := lift (_get_label
                         (default EmptyString (_label_key self)) ex) in
       ret (Some l)
     else ret None) in
  let* speaker_id :=
    (if truthy_opt_str (_speaker_id_key self) then
       let* s := lift (_get_speaker_id
                         (default EmptyString (_speaker_id_key self)) ex) in
       ret (Some s)
     else ret None) in
  let* n := lift (np.shape_at chnkd_audio 0) in
  for_each (seq 0 n)
    (fun i =>
       let cur_k := k +:+ "_" +:+ py_str_int (Z.of_nat i) in
       let* cur_audio := lift (np.getitem chnkd_audio i) in
       let* out_dict :=
         slice_dict i
           (combine (_embedding_names (super_2 self)) embedding_3ds) ∅ in
       yield_ (cur_k, cur_audio, label, speaker_id, out_dict)).

End Pipeline.

(** ** The spec's error taxonomy *)

(** The code raises [ValueError] throughout; the spec names the failures by
    what went wrong.  Each name stands for the errors of the corresponding
    [raise] statements. *)
Definition ConfigurationError (e : exn) : Prop :=
  e = ValueError "Must have exactly one sample_rate_key or sample_rate: "
  \/ e = ValueError
           "If `sample_rate_key` not provided, must provide `sample_rate`.".

Definition MalformedRateError (e : exn) : Prop :=
  e = ValueError "Expected exactly one of `float_list` and `int64_list`: ".

Definition MissingFieldError (e : exn) : Prop :=
  e = ValueError "Audio key not found: "
  \/ e = ValueError "Sample rate key not found: "
  \/ e = ValueError "label key not found: "
  \/ e = ValueError "speaker_id key not found: ".

Definition EmbeddingContractViolation (e : exn) : Prop :=
  e = ValueError "`embedding_2d` wrong type: "
  \/ e = ValueError "`embedding_2d` wrong dims: "
  \/ e = ValueError "Output key not recognized: "
  \/ e = ValueError "Wrong output dim size: "
  \/ e = ValueError "Wrong dtype: "
  \/ e = ValueError "Wrong batch dim: "
  \/ e = ValueError "Wrong output dim: "
  \/ e = ValueError "Wrong output dims: ".

(** ** The chunking helper *)

(** What happens to the samples left over after the last full chunk. *)
Inductive remainder_policy (F : Type) : Type :=
| DropRemainder
| PadRemainder (fill : F).
Arguments DropRemainder {F}.
Arguments PadRemainder {F} _.

(** Modelled from the spec: [utils.get_chunked_audio_fn] of
    [data_prep_utils.py], which is not among the sources.  Section 4.4:
    the input is split "into contiguous, non-overlapping segments of
    [chunk_len]", giving (section 3) a 2-D array [(num_chunks, chunk_len)].
    The spec leaves the trailing-remainder policy open ("drop or pad"), so
    the policy is a parameter. *)
Definition spec_get_chunked_audio_fn {F} (policy : remainder_policy F)
    (model_input : np.ndarray F) (chunk_len : Z) : exn + np.ndarray F :=
  match np.shape model_input with
  | [n] =>
      if chunk_len <=? 0 then
        inl (ValueError "chunk_len must be positive")
      else
        let c := Z.to_nat chunk_len in
        let full := (n / c)%nat in
        match policy with
        | DropRemainder =>
            inr (np.mk_ndarray (np.arr_dtype model_input) [full; c]
                   (firstn (full * c) (np.data model_input)))
        | PadRemainder fill =>
            let num := if (n mod c =? 0)%nat then full else S full in
            inr (np.mk_ndarray (np.arr_dtype model_input) [num; c]
                   (np.data model_input
                      ++ repeat fill (num * c - n)))
        end
  | _ => inl AssertionError
  end.

(** The imports with [utils.get_chunked_audio_fn] as the spec describes
    it. *)
Definition with_spec_chunker {F Handle} (policy : remainder_policy F)
    (libs : Imports F Handle) : Imports F Handle :=
  {| librosa_core_resample := librosa_core_resample libs;
     tfexample_audio_to_npfloat32 := tfexample_audio_to_npfloat32 libs;
     get_chunked_audio_fn := spec_get_chunked_audio_fn policy;
     samples_to_embedding_tfhub := samples_to_embedding_tfhub libs;
     samples_to_embedding_tfhub_w2v2 := samples_to_embedding_tfhub_w2v2 libs;
     reduce_mean := reduce_mean libs |}.

(** ** Notions used in the statements *)

(** A run that yields nothing: every method except the [process]
    generators. *)
Definition silent {E Y A} (m : run E Y A) : Prop := yielded m = [].

(** No event of the log satisfies [p]. *)
Definition log_without {E Y A} (p : E -> bool) (m : run E Y A) : Prop :=
  List.filter p (log m) = [].

(** A generator that has yielded nothing whenever it ends in an error. *)
Definition all_or_nothing {E Y A} (m : run E Y A) : Prop :=
  forall e, outcome m = inl e -> yielded m = [].

(** The Python dict built from [pairs] in order: a later pair replaces an
    earlier one of the same key. *)
Definition py_dict {V} (pairs : list (string * V)) : gmap string V :=
  list_to_map (reverse pairs).

(** [x[i]] when the index is in range. *)
Definition slice_opt {F} (x : np.ndarray F) (i : nat)
  : option (np.ndarray F) :=
  match np.getitem x i with inr xi => Some xi | inl _ => None end.

(** The loop that ends [ChunkAudioAndComputeEmbeddings.process], with the
    variables it reads from the enclosing scope as arguments. *)
Definition emit_chunks {F} (k : string) (chnkd_audio : np.ndarray F)
    (names : list string) (embedding_3ds : list (np.ndarray F))
    (label speaker_id : option bytes) (n : nat)
  : run (event F)
      (string * np.ndarray F * option bytes * option bytes
       * gmap string (np.ndarray F)) unit :=
  for_each (seq 0 n)
    (fun i =>
       let cur_k := k +:+ "_" +:+ py_str_int (Z.of_nat i) in
       let* cur_audio := lift (np.getitem chnkd_audio i) in
       let* out_dict :=
         slice_dict i (combine names embedding_3ds) ∅ in
       yield_ (cur_k, cur_audio, label, speaker_id, out_dict)).

(** The record that the chunk loop yields for chunk [i]. *)
Definition is_chunk_record {F} (k : string) (chnkd_audio : np.ndarray F)
    (names : list string) (embedding_3ds : list (np.ndarray F))
    (label speaker_id : option bytes) (i : nat)
    (y : string * np.ndarray F * option bytes * option bytes
         * gmap string (np.ndarray F)) : Prop :=
  exists cur_audio out_dict,
    y = (k +:+ "_" +:+ py_str_int (Z.of_nat i), cur_audio, label,
         speaker_id, out_dict)
    /\ np.getitem chnkd_audio i = inr cur_audio
    /\ forall name,
         out_dict !! name
         = match py_dict (combine names embedding_3ds) !! name with
           | Some x => slice_opt x i
           | None => None
           end.

(** The key of a record yielded by the chunked stage. *)
Definition record_key {F}
    (y : string * np.ndarray F * option bytes * option bytes
         * gmap string (np.ndarray F)) : string :=
  fst (fst (fst (fst y))).

(** The two reductions that
    [ComputeMultipleEmbeddingsFromSingleModel.process] applies to a model
    output: the mean over the chunk axis, then the mean over the time axis
    with [keepdims]. *)
Definition chunk_then_time_mean {F} (reduce_mean : list F -> F)
    (cur_emb : np.ndarray F) : option (np.ndarray F) :=
  match np.mean reduce_mean cur_emb 0 false with
  | inr embedding_2d =>
      match np.mean reduce_mean embedding_2d 0 true with
      | inr embedding_2d => Some embedding_2d
      | inl _ => None
      end
  | inl _ => None
  end.




(** The same DoFn with another value of
    [compute_embeddings_on_chunked_audio]. *)
Definition with_compute_embeddings_on_chunked_audio {F Mod Handle}
    (b : bool) (self : @ChunkAudioAndComputeEmbeddings F Mod Handle)
  : @ChunkAudioAndComputeEmbeddings F Mod Handle :=
  {| super_2 := super_2 self;
     _label_key := _label_key self;
     _speaker_id_key := _speaker_id_key self;
     _compute_embeddings_on_chunked_audio := b |}.

(** ** Test doubles

    Concrete collaborators and records, in the manner of the repository's
    unit tests: integer samples, a model stub, and small examples. *)

Module Fixtures.

Definition int_mean (l : list Z) : Z :=
  fold_right Z.add 0 l / Z.of_nat (length l).

(** Reads the samples from the [int64_list] of the audio feature. *)
Definition audio_stub (ex : Example) (audio_key : string)
    (normalize_to_pm_one : bool) (k : string) : exn + np.ndarray Z :=
  match ex !! audio_key with
  | Some feat =>
      inr (np.mk_ndarray np.float32 [length (int64_list_value feat)]
             (int64_list_value feat))
  | None => inl (KeyError audio_key)
  end.

(** Keeps every other sample. *)
Fixpoint decimate (l : list Z) : list Z :=
  match l with
  | x :: _ :: rest => x :: decimate rest
  | _ => l
  end.

Definition resample_stub (audio : np.ndarray Z) (orig_sr target_sr : Z)
  : exn + np.ndarray Z :=
  inr (np.mk_ndarray (np.arr_dtype audio)
         [length (decimate (np.data audio))] (decimate (np.data audio))).

(** A single-output model stub: a [(2, 2)] embedding. *)
Definition model_stub (dt : np.dtype) (model_input : np.ndarray Z)
    (sample_rate : Z) (handle : unit) (output_key : pykey) (name : string)
  : exn + pyobj Z :=
  inr (PyNdarray (np.mk_ndarray dt [2; 2]%nat [1; 2; 3; 4])).

(** A multi-output model stub: for [c] chunks, a [(c, 2, 1)] tensor
    holding the numbers from 1. *)
Definition multi_stub (model_input : np.ndarray Z) (handle : unit)
  : exn + gmap string (np.ndarray Z) :=
  match np.shape model_input with
  | c :: _ =>
      inr (<["emb" := np.mk_ndarray np.float32 [c; 2; 1]%nat
                        (map Z.of_nat (seq 1 (c * 2)))]> ∅)
  | [] => inl (CollaboratorError "model input without a batch axis")
  end.

Definition libs : Imports Z unit :=
  {| librosa_core_resample := resample_stub;
     tfexample_audio_to_npfloat32 := audio_stub;
     get_chunked_audio_fn := spec_get_chunked_audio_fn DropRemainder;
     samples_to_embedding_tfhub := model_stub np.float32;
     samples_to_embedding_tfhub_w2v2 := multi_stub;
     reduce_mean := int_mean |}.

(** 16000.0 *)
Definition rate_16000 : spec_float := S754_finite false 125 7.

Definition ex1 : Example :=
  <["audio" := int64_list [1; 2; 3; 4; 5]]>
    (<["label" := int64_list [3]]>
       (<["speaker" := bytes_list ["spk"%string]]>
          (<["sr" := float_list [rate_16000]]> ∅))).

Definition ex_nan_rate : Example :=
  <["audio" := int64_list [1; 2; 3; 4; 5]]>
    (<["sr" := float_list [S754_nan]]> ∅).

Definition stage_A (sample_rate_key : option string)
    (sample_rate : option Z) (average_over_time : bool)
    (model_input_min_length : option Z) (dt : np.dtype)
  : @ComputeEmbeddingMapFn Z unit unit :=
  {| _name := "trill"; _module := tt; _output_key := KeyStr "embedding";
     _audio_key := "audio"; _sample_rate_key := sample_rate_key;
     _sample_rate := sample_rate;
     _average_over_time := average_over_time;
     _feature_fn := None; _normalize_to_pm_one := true;
     _model_input_min_length := model_input_min_length;
     _target_sample_rate := 16000;
     _module_call_fn := model_stub dt;
     _setup_fn := fun _ => tt;
     post_setup_module := Some tt |}.

Definition stage_B (average_over_time : bool) (chunk_len : option Z)
  : @ComputeMultipleEmbeddingsFromSingleModel Z unit unit :=
  {| super_ := stage_A None (Some 16000) average_over_time None
                 np.float32;
     _chunk_len := chunk_len;
     _output_keys := ["emb"%string];
     _embedding_names := ["e1"%string];
     _embedding_len := None;
     _module_call_fn2 := multi_stub |}.

Definition stage_C (average_over_time : bool) (chunk_len : option Z)
    (compute_embeddings_on_chunked_audio : bool)
  : @ChunkAudioAndComputeEmbeddings Z unit unit :=
  {| super_2 := stage_B average_over_time chunk_len;
     _label_key := Some "label"%string;
     _speaker_id_key := Some "speaker"%string;
     _compute_embeddings_on_chunked_audio :=
       compute_embeddings_on_chunked_audio |}.

End Fixtures.

(** ** More test doubles *)

Module MoreFixtures.

(** A feature function: doubles every sample. *)
Definition feature_stub (audio : np.ndarray Z) (sample_rate : Z)
  : exn + pyobj Z :=
  inr (PyNdarray (np.mk_ndarray np.float32 (np.shape audio)
                    (map (Z.mul 2) (np.data audio)))).

Definition stage_with_feature_fn : @ComputeEmbeddingMapFn Z unit unit :=
  {| _name := "trill"; _module := tt; _output_key := KeyStr "embedding";
     _audio_key := "audio"; _sample_rate_key := None;
     _sample_rate := Some 16000;
     _average_over_time := false;
     _feature_fn := Some feature_stub; _normalize_to_pm_one := true;
     _model_input_min_length := Some 100;
     _target_sample_rate := 16000;
     _module_call_fn := Fixtures.model_stub np.float32;
     _setup_fn := fun _ => tt;
     post_setup_module := Some tt |}.

End MoreFixtures.

(** * Properties *)

(** ** Laws of the generator monad *)

Section RunLaws.
Context {E Y : Type}.

Lemma bind_ret_l {A B} (a : A) (k : A -> run E Y B) :
  bind (ret a) k = k a.
Proof. unfold bind, ret; simpl. destruct (k a); reflexivity. Qed.

Lemma bind_lift_inr {A B} (a : A) (k : A -> run E Y B) :
  bind (lift (inr a)) k = k a.
Proof. exact (bind_ret_l a k). Qed.

Lemma bind_raise {A B} (e : exn) (k : A -> run E Y B) :
  bind (raise e) k = raise e.
Proof. reflexivity. Qed.

Lemma bind_lift_inl {A B} (e : exn) (k : A -> run E Y B) :
  bind (lift (inl e)) k = raise e.
Proof. reflexivity. Qed.

Lemma bind_assoc {A B C} (m : run E Y A) (k : A -> run E Y B)
      (h : B -> run E Y C) :
  bind (bind m k) h = bind m (fun a => bind (k a) h).
Proof.
  unfold bind. destruct m as [lg ys [e | a]]; simpl; [reflexivity |].
  destruct (k a) as [lg' ys' [e' | b]]; simpl; [reflexivity |].
  rewrite !app_assoc. reflexivity.
Qed.

Lemma outcome_bind_inl {A B} (m : run E Y A) (k : A -> run E Y B) e :
  outcome m = inl e -> outcome (bind m k) = inl e.
Proof. intros H. unfold bind. rewrite H. reflexivity. Qed.

Lemma outcome_bind_inr {A B} (m : run E Y A) (k : A -> run E Y B) a :
  outcome m = inr a -> outcome (bind m k) = outcome (k a).
Proof. intros H. unfold bind. rewrite H. reflexivity. Qed.

Lemma yielded_bind_inl {A B} (m : run E Y A) (k : A -> run E Y B) e :
  outcome m = inl e -> yielded (bind m k) = yielded m.
Proof. intros H. unfold bind. rewrite H. reflexivity. Qed.

Lemma yielded_bind_inr {A B} (m : run E Y A) (k : A -> run E Y B) a :
  outcome m = inr a -> yielded (bind m k) = yielded m ++ yielded (k a).
Proof. intros H. unfold bind. rewrite H. reflexivity. Qed.

Lemma log_bind_inl {A B} (m : run E Y A) (k : A -> run E Y B) e :
  outcome m = inl e -> log (bind m k) = log m.
Proof. intros H. unfold bind. rewrite H. reflexivity. Qed.

Lemma log_bind_inr {A B} (m : run E Y A) (k : A -> run E Y B) a :
  outcome m = inr a -> log (bind m k) = log m ++ log (k a).
Proof. intros H. unfold bind. rewrite H. reflexivity. Qed.

Lemma bind_inv_inr {A B} (m : run E Y A) (k : A -> run E Y B) b :
  outcome (bind m k) = inr b ->
  exists a, outcome m = inr a /\ outcome (k a) = inr b.
Proof.
  unfold bind. destruct (outcome m) as [e | a]; simpl; [discriminate |].
  intros H. exists a. split; [reflexivity | exact H].
Qed.

(** A run that returns on a branch keeps nothing of the branch but its
    effects. *)
Lemma bind_tell {B} (ev : E) (k : unit -> run E Y B) :
  bind (tell ev) k
  = Run (ev :: log (k tt)) (yielded (k tt)) (outcome (k tt)).
Proof. reflexivity. Qed.

End RunLaws.

(** ** Python primitives *)

Lemma truthy_str_nonempty (s : string) :
  truthy_str s = true <-> s <> EmptyString.
Proof. destruct s; simpl; split; congruence. Qed.

(** [str(n)] is never the empty string. *)
Lemma py_str_int_truthy (n : Z) : truthy_str (py_str_int n) = true.
Proof.
  unfold py_str_int, NilZero.string_of_int.
  destruct (Z.to_int n) as [d | d].
  - unfold NilZero.string_of_uint. destruct d; reflexivity.
  - reflexivity.
Qed.

(** ** Decimal numerals

    [py_str_int n] is the one byte string that reads, by place value, as
    [n]: the printer of the Standard Library that models [str] and the
    reader [spec_decimal_value] written from the notion of a decimal numeral
    agree in both directions. *)

(** The reader on a few byte strings: numerals, and strings that are not
    the decimal form of any integer. *)
Example spec_decimal_value_samples :
  map spec_decimal_value
    ["0"; "3"; "-30"; "1024"; ""; "-"; "-0"; "007"; "+3"; "3 "; "12a"]%string
  = [Some 0; Some 3; Some (-30); Some 1024; None; None; None; None; None;
     None; None].
Proof. reflexivity. Qed.

(** Evaluates [decimal_digit] at the byte in the goal. *)
Ltac digit_step :=
  match goal with
  | |- context [decimal_digit ?c] =>
      let v := eval vm_compute in (decimal_digit c) in
      change (decimal_digit c) with v; cbn beta iota
  end.

Lemma decimal_digits_acc (d : Decimal.uint) (acc : positive) :
  decimal_digits (Z.pos acc) (NilEmpty.string_of_uint d)
  = Some (Z.pos (Pos.of_uint_acc d acc)).
Proof.
  revert acc.
  induction d; intros acc;
    cbn [NilEmpty.string_of_uint decimal_digits Pos.of_uint_acc];
    try reflexivity.
  all: digit_step; rewrite <- IHd; f_equal; lia.
Qed.

(** Reading the digits of [d] gives the number [d] stands for. *)
Lemma decimal_digits_of_uint (d : Decimal.uint) :
  decimal_digits 0 (NilEmpty.string_of_uint d) = Some (Z.of_N (Pos.of_uint d)).
Proof.
  induction d; cbn [NilEmpty.string_of_uint decimal_digits Pos.of_uint];
    try reflexivity; digit_step; try exact IHd.
  all: exact (decimal_digits_acc d _).
Qed.

Lemma unorm_leading_zero (d d' : Decimal.uint) :
  Decimal.unorm d = Decimal.D0 d' -> d' = Decimal.Nil.
Proof.
  induction d; cbn; intros H; try discriminate.
  - injection H as <-. reflexivity.
  - auto.
Qed.

(** The numeral of a positive number does not start with the digit 0. *)
Lemma to_uint_leading (p : positive) (d : Decimal.uint) :
  Pos.to_uint p <> Decimal.D0 d.
Proof.
  intros H.
  pose proof (DecimalPos.Unsigned.to_of (Pos.to_uint p)) as Hn.
  rewrite DecimalPos.Unsigned.of_to in Hn. cbn [N.to_uint] in Hn.
  rewrite H in Hn. symmetry in Hn.
  apply unorm_leading_zero in Hn. subst d.
  exact (DecimalPos.Unsigned.to_uint_nonzero p H).
Qed.

Lemma spec_decimal_natural_to_uint (p : positive) :
  spec_decimal_natural (NilEmpty.string_of_uint (Pos.to_uint p))
  = Some (Z.pos p).
Proof.
  unfold spec_decimal_natural.
  assert (Hc : no_leading_zero (NilEmpty.string_of_uint (Pos.to_uint p))
               = true).
  { pose proof (to_uint_leading p) as Hl.
    pose proof (DecimalPos.Unsigned.to_uint_nonnil p) as Hnil.
    destruct (Pos.to_uint p) as [| d | d | d | d | d | d | d | d | d | d];
      [ congruence
      | exfalso; exact (Hl d eq_refl)
      | destruct d; reflexivity .. ]. }
  rewrite Hc, decimal_digits_of_uint, DecimalPos.Unsigned.of_to. reflexivity.
Qed.

Lemma string_of_uint_nonnil (d : Decimal.uint) :
  d <> Decimal.Nil -> NilZero.string_of_uint d = NilEmpty.string_of_uint d.
Proof. destruct d; [congruence | reflexivity ..]. Qed.

Lemma string_of_uint_first (d : Decimal.uint) c s :
  NilEmpty.string_of_uint d = String c s -> Ascii.eqb c "-" = false.
Proof. destruct d; cbn; intros [= <- _]; reflexivity. Qed.

(** [str(n)] reads as [n]. *)
Lemma py_str_int_decimal_value (n : Z) :
  spec_decimal_value (py_str_int n) = Some n.
Proof.
  unfold py_str_int. destruct n as [| p | p]; [reflexivity | |];
    cbn [Z.to_int NilZero.string_of_int];
    rewrite (string_of_uint_nonnil _ (DecimalPos.Unsigned.to_uint_nonnil p)).
  - pose proof (spec_decimal_natural_to_uint p) as H.
    destruct (NilEmpty.string_of_uint (Pos.to_uint p)) as [| c s] eqn:Hs.
    + discriminate H.
    + unfold spec_decimal_value.
      rewrite (string_of_uint_first _ _ _ Hs). exact H.
  - cbn [spec_decimal_value Ascii.eqb]. cbn.
    rewrite spec_decimal_natural_to_uint. reflexivity.
Qed.

(** A byte with a digit value in front of a numeral is a numeral, which
    starts with the digit 0 or is in normal form. *)
Lemma decimal_digit_char (c : ascii) (v : Z) (s : string) :
  decimal_digit c = Some v ->
  forall d, s = NilEmpty.string_of_uint d ->
  exists d', String c s = NilEmpty.string_of_uint d'
             /\ (d' = Decimal.D0 d \/ Decimal.unorm d' = d').
Proof.
  intros Hc d ->.
  destruct c as [[|] [|] [|] [|] [|] [|] [|] [|]];
    vm_compute in Hc; try discriminate Hc;
    first
      [ exists (Decimal.D0 d); split; [reflexivity | left; reflexivity]
      | exists (Decimal.D1 d); split; [reflexivity | right; reflexivity]
      | exists (Decimal.D2 d); split; [reflexivity | right; reflexivity]
      | exists (Decimal.D3 d); split; [reflexivity | right; reflexivity]
      | exists (Decimal.D4 d); split; [reflexivity | right; reflexivity]
      | exists (Decimal.D5 d); split; [reflexivity | right; reflexivity]
      | exists (Decimal.D6 d); split; [reflexivity | right; reflexivity]
      | exists (Decimal.D7 d); split; [reflexivity | right; reflexivity]
      | exists (Decimal.D8 d); split; [reflexivity | right; reflexivity]
      | exists (Decimal.D9 d); split; [reflexivity | right; reflexivity] ].
Qed.

Lemma decimal_digits_string_of_uint (s : string) :
  forall acc m, decimal_digits acc s = Some m ->
  exists d, s = NilEmpty.string_of_uint d.
Proof.
  induction s as [| c s IH]; intros acc m H.
  - exists Decimal.Nil. reflexivity.
  - cbn [decimal_digits] in H.
    destruct (decimal_digit c) as [v |] eqn:Hc; [| discriminate].
    destruct (IH _ _ H) as [d Hd].
    destruct (decimal_digit_char c v s Hc d Hd) as (d' & Hd' & _).
    exists d'. exact Hd'.
Qed.

Lemma no_leading_zero_unorm (d : Decimal.uint) :
  no_leading_zero (NilEmpty.string_of_uint d) = true ->
  d <> Decimal.Nil /\ Decimal.unorm d = d.
Proof.
  destruct d as [| d | d | d | d | d | d | d | d | d | d];
    cbn [NilEmpty.string_of_uint no_leading_zero];
    [discriminate | | split; [discriminate | reflexivity] ..].
  destruct d; cbn; intros H; try discriminate H.
  split; [discriminate | reflexivity].
Qed.

Lemma to_int_of_N (x : N) : Z.to_int (Z.of_N x) = Decimal.Pos (N.to_uint x).
Proof. destruct x; reflexivity. Qed.

Lemma spec_decimal_natural_inv (s : string) (m : Z) :
  spec_decimal_natural s = Some m ->
  exists d, s = NilEmpty.string_of_uint d /\ d <> Decimal.Nil
            /\ m = Z.of_N (Pos.of_uint d)
            /\ N.to_uint (Pos.of_uint d) = d.
Proof.
  unfold spec_decimal_natural.
  destruct (no_leading_zero s) eqn:Hc; [| discriminate].
  intros H. destruct (decimal_digits_string_of_uint s _ _ H) as [d ->].
  destruct (no_leading_zero_unorm d Hc) as [Hnil Hnorm].
  rewrite decimal_digits_of_uint in H. injection H as <-.
  exists d. repeat split; try assumption.
  rewrite DecimalPos.Unsigned.to_of. exact Hnorm.
Qed.

(** No other byte string reads as [n]. *)
Lemma spec_decimal_value_unique (s : string) (n : Z) :
  spec_decimal_value s = Some n -> s = py_str_int n.
Proof.
  unfold spec_decimal_value, py_str_int.
  destruct s as [| c s']; [discriminate |].
  destruct (Ascii.eqb c "-") eqn:Hc.
  - apply Ascii.eqb_eq in Hc. subst c.
    destruct (spec_decimal_natural s') as [m |] eqn:Hm; [| discriminate].
    destruct (0 <? m) eqn:Hpos; [| discriminate].
    intros [= <-].
    destruct (spec_decimal_natural_inv _ _ Hm) as (d & -> & Hnil & -> & Hd).
    destruct (Pos.of_uint d) as [| p] eqn:Hp; [discriminate Hpos |].
    change (Z.to_int (- Z.of_N (N.pos p))) with (Decimal.Neg (Pos.to_uint p)).
    cbn [NilZero.string_of_int]. cbn [N.to_uint] in Hd.
    rewrite Hd, (string_of_uint_nonnil _ Hnil). reflexivity.
  - intros Hm.
    destruct (spec_decimal_natural_inv _ _ Hm) as (d & Hs & Hnil & -> & Hd).
    rewrite to_int_of_N, Hd, Hs. cbn [NilZero.string_of_int].
    rewrite (string_of_uint_nonnil _ Hnil). reflexivity.
Qed.

(** ** Symmetric padding *)

Section TakeCyclic.
Context {A : Type}.
Implicit Types (cur block x : list A).

Lemma take_cyclic_length k cur block :
  block <> [] -> length (np.take_cyclic k cur block) = k.
Proof.
  intros Hblock. revert cur.
  induction k as [| k IH]; intros cur; [reflexivity |].
  destruct cur as [| c cur']; simpl.
  - destruct block as [| b bl]; [congruence |]. simpl. f_equal. apply IH.
  - f_equal. apply IH.
Qed.

Lemma take_cyclic_within k cur block :
  (k <= length cur)%nat -> np.take_cyclic k cur block = firstn k cur.
Proof.
  revert cur. induction k as [| k IH]; intros cur Hk; [reflexivity |].
  destruct cur as [| c cur']; simpl in *; [lia |].
  f_equal. apply IH. lia.
Qed.

Lemma take_cyclic_first_block k block :
  (k <= length block)%nat -> np.take_cyclic k [] block = firstn k block.
Proof.
  intros Hk. destruct k as [| k]; [reflexivity |].
  destruct block as [| b bl]; simpl in *; [lia |].
  f_equal. apply take_cyclic_within. lia.
Qed.

Lemma take_cyclic_lookup k cur block i :
  block <> [] -> (i < k)%nat ->
  np.take_cyclic k cur block !! i
  = if decide (i < length cur)%nat then cur !! i
    else block !! ((i - length cur) mod length block)%nat.
Proof.
  intros Hblock. revert cur i.
  induction k as [| k IH]; intros cur i Hi; [lia |].
  destruct cur as [| c cur'].
  - destruct block as [| b bl]; [congruence |].
    cbn [np.take_cyclic]. destruct i as [| i].
    + simpl. rewrite Nat.sub_diag. reflexivity.
    + cbn [lookup list_lookup]. rewrite IH by lia.
      change (length []) with 0%nat. rewrite Nat.sub_0_r.
      case_decide as Hlt; case_decide; try lia.
      * rewrite Nat.mod_small by (simpl; lia). reflexivity.
      * replace (S i) with ((i - length bl) + 1 * length (b :: bl))%nat
          by (simpl; lia).
        rewrite Nat.Div0.mod_add. reflexivity.
  - cbn [np.take_cyclic]. destruct i as [| i].
    + reflexivity.
    + cbn [lookup list_lookup]. rewrite IH by lia.
      simpl length. repeat case_decide; try lia; reflexivity.
Qed.

Lemma mirror_index_after n t :
  (0 < n)%nat ->
  np.mirror_index n (n + t)
  = let u := (t mod (2 * n))%nat in
    if (u <? n)%nat then (n - 1 - u)%nat else (u - n)%nat.
Proof.
  intros Hn. unfold np.mirror_index. cbn zeta.
  assert (Hu : (t mod (2 * n) < 2 * n)%nat) by (apply Nat.mod_upper_bound; lia).
  rewrite <- Nat.Div0.add_mod_idemp_r.
  set (u := (t mod (2 * n))%nat) in *.
  destruct (u <? n)%nat eqn:Hlt.
  - apply Nat.ltb_lt in Hlt.
    rewrite Nat.mod_small by lia.
    assert (Hge : (n + u <? n)%nat = false) by (apply Nat.ltb_ge; lia).
    rewrite Hge. lia.
  - apply Nat.ltb_ge in Hlt.
    replace (n + u)%nat with ((u - n) + 1 * (2 * n))%nat by lia.
    rewrite Nat.Div0.mod_add, Nat.mod_small by lia.
    assert (Hlt' : (u - n <? n)%nat = true) by (apply Nat.ltb_lt; lia).
    rewrite Hlt'. reflexivity.
Qed.

Lemma symmetric_tail_length x delta :
  x <> [] -> length (np.symmetric_tail x delta) = delta.
Proof.
  intros Hx. apply take_cyclic_length.
  destruct x; [congruence | intros H; apply app_eq_nil in H as [_ H]; discriminate H].
Qed.

Lemma symmetric_tail_lookup x delta t :
  x <> [] -> (t < delta)%nat ->
  np.symmetric_tail x delta !! t
  = x !! np.mirror_index (length x) (length x + t).
Proof.
  intros Hx Ht. unfold np.symmetric_tail.
  assert (Hn : (0 < length x)%nat) by (destruct x; simpl; [congruence | lia]).
  rewrite take_cyclic_lookup; [| | exact Ht].
  2:{ intros H. apply app_eq_nil in H as [_ H]. congruence. }
  change (length []) with 0%nat.
  case_decide; [lia |]. rewrite Nat.sub_0_r.
  rewrite length_app, length_reverse, mirror_index_after by exact Hn.
  cbn zeta. replace (length x + length x)%nat with (2 * length x)%nat by lia.
  assert (Hu : (t mod (2 * length x) < 2 * length x)%nat)
    by (apply Nat.mod_upper_bound; lia).
  set (u := (t mod (2 * length x))%nat) in *.
  destruct (u <? length x)%nat eqn:Hlt.
  - apply Nat.ltb_lt in Hlt.
    rewrite lookup_app_l by (rewrite length_reverse; exact Hlt).
    rewrite reverse_lookup by exact Hlt. f_equal. lia.
  - apply Nat.ltb_ge in Hlt.
    rewrite lookup_app_r by (rewrite length_reverse; exact Hlt).
    rewrite length_reverse. reflexivity.
Qed.

(** When at most one reflection is needed the appended samples are the
    last samples of the input in reverse order. *)
Lemma symmetric_tail_single_reflection x delta :
  (delta <= length x)%nat ->
  np.symmetric_tail x delta = firstn delta (reverse x).
Proof.
  intros Hd. unfold np.symmetric_tail.
  rewrite take_cyclic_first_block by (rewrite length_app, length_reverse; lia).
  apply take_app_le. rewrite length_reverse. exact Hd.
Qed.

End TakeCyclic.

(** ** Arrays and chunks *)

Lemma prod_shape_singleton (c : nat) : np.prod_shape [c] = c.
Proof. unfold np.prod_shape. simpl. lia. Qed.

(** Row [i] of a 2-D array. *)
Lemma getitem_2d {F} (a : np.ndarray F) (num c i : nat) :
  np.shape a = [num; c] -> (i < num)%nat ->
  np.getitem a i
  = inr (np.mk_ndarray (np.arr_dtype a) [c]
           (firstn c (skipn (i * c) (np.data a)))).
Proof.
  intros Hshape Hi. unfold np.getitem. rewrite Hshape.
  apply Nat.ltb_lt in Hi. rewrite Hi, prod_shape_singleton. reflexivity.
Qed.

Lemma expand_if_1d_1d {F} (a : np.ndarray F) (n : nat) :
  np.shape a = [n] ->
  expand_if_1d a = np.mk_ndarray (np.arr_dtype a) [1%nat; n] (np.data a).
Proof.
  intros Hshape. unfold expand_if_1d, np.ndim, np.expand_dims0.
  rewrite Hshape. reflexivity.
Qed.

Lemma expand_if_1d_2d {F} (a : np.ndarray F) (num c : nat) :
  np.shape a = [num; c] -> expand_if_1d a = a.
Proof.
  intros Hshape. unfold expand_if_1d, np.ndim. rewrite Hshape. reflexivity.
Qed.

(** The rows of the array that the spec's chunker returns. *)
Lemma spec_chunker_rows {F} (policy : remainder_policy F)
    (model_input : np.ndarray F) (chunk_len : Z) (n : nat) :
  np.shape model_input = [n] -> length (np.data model_input) = n ->
  0 < chunk_len ->
  let c := Z.to_nat chunk_len in
  exists chunked num,
    spec_get_chunked_audio_fn policy model_input chunk_len = inr chunked
    /\ np.shape chunked = [num; c]
    /\ np.arr_dtype chunked = np.arr_dtype model_input
    /\ length (np.data chunked) = (num * c)%nat
    /\ (n / c <= num)%nat
    /\ (forall i j, (i < num)%nat -> (j < c)%nat -> (i * c + j < n)%nat ->
          np.data chunked !! (i * c + j)%nat
          = np.data model_input !! (i * c + j)%nat).
Proof.
  intros Hshape Hlen Hpos c.
  assert (Hc : (0 < c)%nat) by (unfold c; lia).
  pose proof (Nat.div_mod_eq n c) as Hdiv.
  pose proof (Nat.mod_upper_bound n c ltac:(lia)) as Hmod.
  unfold spec_get_chunked_audio_fn. rewrite Hshape.
  assert (Hle : (chunk_len <=? 0) = false) by (apply Z.leb_gt; exact Hpos).
  rewrite Hle. fold c.
  destruct policy as [| fill].
  - exists (np.mk_ndarray (np.arr_dtype model_input) [(n / c)%nat; c]
              (firstn (n / c * c) (np.data model_input))), (n / c)%nat.
    cbn [np.shape np.arr_dtype np.data].
    repeat split; try reflexivity.
    + rewrite length_take. nia.
    + intros i j Hi Hj _. apply lookup_take_lt. nia.
  - set (num := if (n mod c =? 0)%nat then (n / c)%nat else S (n / c)).
    assert (Hnum : (n <= num * c /\ n / c <= num)%nat).
    { unfold num. destruct (n mod c =? 0)%nat eqn:Hz.
      - apply Nat.eqb_eq in Hz. nia.
      - nia. }
    exists (np.mk_ndarray (np.arr_dtype model_input) [num; c]
              (np.data model_input ++ repeat fill (num * c - n))), num.
    cbn [np.shape np.arr_dtype np.data].
    repeat split; try reflexivity; try (apply Hnum).
    + rewrite length_app, repeat_length. lia.
    + intros i j _ _ Hin. apply lookup_app_l. lia.
Qed.

Lemma dtype_eqb_eq (a b : np.dtype) : np.dtype_eqb a b = true <-> a = b.
Proof. destruct a, b; simpl; split; congruence. Qed.

(** ** Runs without yields, and what a log does not contain *)

Section Effects.
Context {E Y : Type}.

Lemma silent_ret {A} (a : A) : silent (ret a : run E Y A).
Proof. reflexivity. Qed.

Lemma silent_raise {A} (e : exn) : silent (raise e : run E Y A).
Proof. reflexivity. Qed.

Lemma silent_lift {A} (r : exn + A) : silent (lift r : run E Y A).
Proof. reflexivity. Qed.

Lemma silent_tell (ev : E) : silent (tell ev : run E Y unit).
Proof. reflexivity. Qed.

Lemma silent_assert (b : bool) : silent (assert_ b : run E Y unit).
Proof. destruct b; reflexivity. Qed.

Lemma silent_bind {A B} (m : run E Y A) (k : A -> run E Y B) :
  silent m -> (forall a, silent (k a)) -> silent (bind m k).
Proof.
  unfold silent, bind. intros Hm Hk.
  destruct (outcome m) as [e | a]; simpl; [exact Hm |].
  rewrite Hm, Hk. reflexivity.
Qed.

Lemma log_without_ret {A} p (a : A) : log_without p (ret a : run E Y A).
Proof. reflexivity. Qed.

Lemma log_without_raise {A} p (e : exn) :
  log_without p (raise e : run E Y A).
Proof. reflexivity. Qed.

Lemma log_without_lift {A} p (r : exn + A) :
  log_without p (lift r : run E Y A).
Proof. reflexivity. Qed.

Lemma log_without_assert p (b : bool) :
  log_without p (assert_ b : run E Y unit).
Proof. destruct b; reflexivity. Qed.

Lemma log_without_tell p (ev : E) :
  p ev = false -> log_without p (tell ev : run E Y unit).
Proof. intros H. unfold log_without. simpl. rewrite H. reflexivity. Qed.

Lemma log_without_bind {A B} p (m : run E Y A) (k : A -> run E Y B) :
  log_without p m -> (forall a, log_without p (k a)) ->
  log_without p (bind m k).
Proof.
  unfold log_without, bind. intros Hm Hk.
  destruct (outcome m) as [e | a]; simpl; [exact Hm |].
  rewrite List.filter_app, Hm, Hk. reflexivity.
Qed.

End Effects.

(** Walks through a method body built from the monad's primitives. *)
Ltac effect_free :=
  repeat first
    [ apply silent_ret | apply silent_raise | apply silent_lift
    | apply silent_tell | apply silent_assert
    | apply log_without_ret | apply log_without_raise
    | apply log_without_lift | apply log_without_assert
    | apply log_without_tell; reflexivity
    | apply silent_bind; [| intros ?]
    | apply log_without_bind; [| intros ?]
    | match goal with
      | |- silent (match ?x with _ => _ end) => destruct x
      | |- log_without _ (match ?x with _ => _ end) => destruct x
      end ].

Section MethodEffects.
Context {F Mod Handle Y : Type}.
Variable libs : Imports F Handle.
Implicit Types (self : @ComputeEmbeddingMapFn F Mod Handle).

Lemma read_audio_silent self ex k nrm :
  silent (_read_audio_from_tfexample libs (Y:=Y) self ex k nrm).
Proof. unfold _read_audio_from_tfexample. effect_free. Qed.

Lemma read_sample_rate_silent self ex :
  silent (_read_sample_rate_from_tfexample (Y:=Y) self ex).
Proof. unfold _read_sample_rate_from_tfexample. effect_free. Qed.

Lemma read_sample_rate_log self ex :
  log (_read_sample_rate_from_tfexample (Y:=Y) self ex) = [].
Proof.
  unfold _read_sample_rate_from_tfexample.
  repeat match goal with
         | |- log (match ?x with _ => _ end) = [] => destruct x
         end; reflexivity.
Qed.

Lemma audio_to_features_silent self audio sr :
  silent (_audio_to_features (Y:=Y) self audio sr).
Proof. unfold _audio_to_features. effect_free. Qed.

Lemma read_and_preprocess_audio_silent self k ex :
  silent (read_and_preprocess_audio libs (Y:=Y) self k ex).
Proof.
  unfold read_and_preprocess_audio, resample.
  effect_free; auto using read_audio_silent, read_sample_rate_silent,
    audio_to_features_silent.
Qed.

Lemma read_audio_no_resample self ex k nrm :
  log_without is_ResampleCall
    (_read_audio_from_tfexample libs (Y:=Y) self ex k nrm).
Proof. unfold _read_audio_from_tfexample. effect_free. Qed.

Lemma audio_to_features_no_resample self audio sr :
  log_without is_ResampleCall (_audio_to_features (Y:=Y) self audio sr).
Proof. unfold _audio_to_features. effect_free. Qed.

Lemma read_and_preprocess_audio_no_module_call self k ex :
  log_without is_ModuleCall
    (read_and_preprocess_audio libs (Y:=Y) self k ex).
Proof.
  unfold read_and_preprocess_audio, resample, _audio_to_features,
    _read_sample_rate_from_tfexample, _read_audio_from_tfexample.
  effect_free.
Qed.

Lemma tfex_to_chunked_audio_silent
    (self : @ComputeMultipleEmbeddingsFromSingleModel F Mod Handle) k ex :
  silent (tfex_to_chunked_audio libs (Y:=Y) self k ex).
Proof.
  unfold tfex_to_chunked_audio.
  effect_free; auto using read_and_preprocess_audio_silent,
    read_audio_silent, read_sample_rate_silent, audio_to_features_silent.
Qed.

End MethodEffects.

Lemma bind_congr {E Y A B} (m : run E Y A) (k k' : A -> run E Y B) :
  (forall a, outcome m = inr a -> k a = k' a) -> bind m k = bind m k'.
Proof.
  intros H. unfold bind. destruct (outcome m) as [e | a]; [reflexivity |].
  rewrite (H a eq_refl). reflexivity.
Qed.

(** A run with an empty log and no yields is determined by its outcome. *)
Lemma run_pure {E Y A} (m : run E Y A) (a : A) :
  log m = [] -> yielded m = [] -> outcome m = inr a -> m = ret a.
Proof. destruct m as [lg ys o]. simpl. intros -> -> ->. reflexivity. Qed.

(** ** Loops *)

Section Loops.
Context {E Y : Type}.

Lemma silent_for_each {A} (l : list A) (body : A -> run E Y unit) :
  (forall x, silent (body x)) -> silent (for_each l body).
Proof.
  intros Hbody. induction l as [| x l IH]; simpl; [reflexivity |].
  apply silent_bind; [apply Hbody | intros _; exact IH].
Qed.

Lemma silent_list_comp {A B} (l : list A) (body : A -> run E Y B) :
  (forall x, silent (body x)) -> silent (list_comp l body).
Proof.
  intros Hbody. induction l as [| x l IH]; simpl; [reflexivity |].
  apply silent_bind; [apply Hbody | intros y].
  apply silent_bind; [exact IH | intros ys; reflexivity].
Qed.

Lemma log_without_for_each {A} p (l : list A) (body : A -> run E Y unit) :
  (forall x, log_without p (body x)) -> log_without p (for_each l body).
Proof.
  intros Hbody. induction l as [| x l IH]; simpl; [reflexivity |].
  apply log_without_bind; [apply Hbody | intros _; exact IH].
Qed.

Lemma log_without_list_comp {A B} p (l : list A) (body : A -> run E Y B) :
  (forall x, log_without p (body x)) -> log_without p (list_comp l body).
Proof.
  intros Hbody. induction l as [| x l IH]; simpl; [reflexivity |].
  apply log_without_bind; [apply Hbody | intros y].
  apply log_without_bind; [exact IH | intros ys; reflexivity].
Qed.

End Loops.

Section ChunkedStageEffects.
Context {F Mod Handle Y : Type}.
Variable libs : Imports F Handle.

Lemma slice_dict_log i (pairs : list (string * np.ndarray F)) out_dict :
  log (slice_dict (Y:=Y) i pairs out_dict) = [].
Proof.
  revert out_dict. induction pairs as [| [name x] rest IH]; intros out_dict;
    [reflexivity |].
  simpl. destruct (np.getitem x i) as [e | xi]; [reflexivity |].
  rewrite bind_lift_inr. apply IH.
Qed.

Lemma slice_dict_silent i (pairs : list (string * np.ndarray F)) out_dict :
  silent (slice_dict (Y:=Y) i pairs out_dict).
Proof.
  revert out_dict. induction pairs as [| [name x] rest IH]; intros out_dict;
    [reflexivity |].
  simpl. destruct (np.getitem x i) as [e | xi]; [reflexivity |].
  rewrite bind_lift_inr. apply IH.
Qed.

Lemma log_nil_bind {A B} (m : run (event F) Y A)
    (k : A -> run (event F) Y B) :
  log m = [] -> (forall a, log (k a) = []) -> log (bind m k) = [].
Proof.
  intros Hm Hk. unfold bind. destruct (outcome m) as [e | a]; simpl;
    [exact Hm |].
  rewrite Hm, Hk. reflexivity.
Qed.

Lemma log_nil_assert (b : bool) : log (assert_ b : run (event F) Y unit) = [].
Proof. destruct b; reflexivity. Qed.

Lemma check_embedding_3d_log
    (self : @ChunkAudioAndComputeEmbeddings F Mod Handle) chnkd_audio x :
  log (check_embedding_3d (Y:=Y) self chnkd_audio x) = [].
Proof.
  unfold check_embedding_3d.
  repeat first
    [ apply log_nil_assert
    | reflexivity
    | apply log_nil_bind; [| intros ?]
    | match goal with
      | |- log (if ?c then _ else _) = [] => destruct c
      end ].
Qed.

Lemma check_embedding_3d_silent
    (self : @ChunkAudioAndComputeEmbeddings F Mod Handle) chnkd_audio x :
  silent (check_embedding_3d (Y:=Y) self chnkd_audio x).
Proof. unfold check_embedding_3d. effect_free. Qed.

Lemma tfex_to_chunked_audio_no_module_call
    (self : @ComputeMultipleEmbeddingsFromSingleModel F Mod Handle) k ex :
  log_without is_ModuleCall (tfex_to_chunked_audio libs (Y:=Y) self k ex).
Proof.
  unfold tfex_to_chunked_audio.
  apply log_without_bind;
    [apply read_and_preprocess_audio_no_module_call | intros [mi sr]].
  effect_free.
Qed.

(** If chunking succeeded, so did the preprocessing it starts with. *)
Lemma tfex_to_chunked_audio_inr
    (self : @ComputeMultipleEmbeddingsFromSingleModel F Mod Handle) k ex x :
  outcome (tfex_to_chunked_audio libs (Y:=Y) self k ex) = inr x ->
  exists y,
    outcome (read_and_preprocess_audio libs (Y:=Y) (super_ self) k ex)
    = inr y.
Proof.
  unfold tfex_to_chunked_audio. intros H.
  apply bind_inv_inr in H as (y & Hy & _). exists y. exact Hy.
Qed.

End ChunkedStageEffects.

(** ** Label extraction *)

(** C9. [_get_label] fails with the missing-field [ValueError] when the
    label field is absent.  When the field is integer-encoded with first
    value [n], a label is returned and it is the decimal byte string of
    [n]: read by place value ([spec_decimal_value]: digits most significant
    first, no leading zero, a minus sign exactly for negative numbers) it
    gives [n] back, and no other byte string does; it is what [str(n)]
    gives, so 3 gives "3", 0 gives "0", -30 gives "-30".  A byte-encoded
    field gives its first byte string, the [assert label] rejecting an
    empty one; and whatever is returned is a non-empty byte string. *)
Theorem get_label_spec (label_key : string) (ex : Example) :
  (ex !! label_key = None ->
   _get_label label_key ex = inl (ValueError "label key not found: "))
  /\ (forall n rest,
        ex !! label_key = Some (int64_list (n :: rest)) ->
        exists label,
          _get_label label_key ex = inr label
          /\ spec_decimal_value label = Some n
          /\ (forall s, spec_decimal_value s = Some n -> s = label)
          /\ label = py_str_int n)
  /\ (forall b rest,
        ex !! label_key = Some (bytes_list (b :: rest)) ->
        _get_label label_key ex
        = if truthy_str b then inr b else inl AssertionError)
  /\ (forall label, _get_label label_key ex = inr label ->
                    label <> EmptyString)
  /\ py_str_int 3 = "3"%string
  /\ py_str_int 0 = "0"%string
  /\ py_str_int (-30) = "-30"%string.
Proof.
  unfold _get_label. repeat split.
  - intros ->. reflexivity.
  - intros n rest ->. exists (py_str_int n). simpl.
    rewrite py_str_int_truthy. split; [reflexivity |].
    split; [apply py_str_int_decimal_value |].
    split; [| reflexivity].
    intros s Hs. apply spec_decimal_value_unique, Hs.
  - intros b rest ->. reflexivity.
  - intros label. destruct (ex !! label_key) as [feat |]; [| discriminate].
    destruct (int64_list_value feat) as [| n ?].
    + destruct (bytes_list_value feat) as [| b ?]; [discriminate |].
      destruct (truthy_str b) eqn:Hb; [| discriminate].
      intros [= <-]. apply truthy_str_nonempty, Hb.
    + rewrite py_str_int_truthy. intros [= <-].
      apply truthy_str_nonempty, py_str_int_truthy.
Qed.

(** The scenario of the spec (the integer 3 gives "3"), and a negative
    label, both obtained from the place-value reading alone. *)
Lemma get_label_spec_witness :
  Fixtures.ex1 !! "label"%string = Some (int64_list [3])
  /\ _get_label "label" Fixtures.ex1 = inr "3"%string
  /\ _get_label "label" (<["label"%string := int64_list [-30; 7]]> ∅)
     = inr "-30"%string.
Proof.
  split; [reflexivity |].
  split.
  - destruct (proj1 (proj2 (get_label_spec "label" Fixtures.ex1)) 3 [])
      as (label & Hget & _ & Honly & _); [reflexivity |].
    rewrite Hget. f_equal. symmetry. apply Honly. reflexivity.
  - destruct (proj1 (proj2 (get_label_spec "label"
                              (<["label"%string := int64_list [-30; 7]]> ∅)))
                (-30) [7])
      as (label & Hget & _ & Honly & _); [reflexivity |].
    rewrite Hget. f_equal. symmetry. apply Honly. reflexivity.
Defined.

(** ** Sample-rate resolution *)

(** C2, as stated, fails on a record whose rate field holds the float NaN:
    exactly one representation is populated, yet no rate is returned,
    because [int(nan)] raises. *)
Lemma sample_rate_nan_counterexample :
  let self := Fixtures.stage_A (Some "sr"%string) None true None np.float32 in
  let ex := Fixtures.ex_nan_rate in
  (exists sr_feat,
      ex !! "sr"%string = Some sr_feat
      /\ (0 < length (float_list_value sr_feat))%nat
      /\ length (int64_list_value sr_feat) = 0%nat)
  /\ ~ (exists rate : Z,
           outcome (_read_sample_rate_from_tfexample (Y:=unit) self ex)
           = inr rate).
Proof.
  split.
  - exists (float_list [S754_nan]). repeat split. simpl. lia.
  - intros [rate H]. vm_compute in H. discriminate H.
Qed.

(** C2 (amended).  When the rate is read from a field of the record, the
    resolution fails with the malformed-rate error exactly when zero or
    both of the float and integer lists are populated.  When only the
    integer list is populated its first value is returned; when only the
    float list is populated the result is [int] of its first value: the
    value truncated toward zero if it is finite. *)
Theorem read_sample_rate_from_field {F Mod Handle Y : Type}
    (self : @ComputeEmbeddingMapFn F Mod Handle) (ex : Example)
    (key : string) (sr_feat : Feature) :
  _sample_rate_key self = Some key ->
  truthy_str key = true ->
  ex !! key = Some sr_feat ->
  let result :=
    outcome (_read_sample_rate_from_tfexample (Y:=Y) self ex) in
  let nf := length (float_list_value sr_feat) in
  let ni := length (int64_list_value sr_feat) in
  ((exists e, result = inl e /\ MalformedRateError e)
   <-> (nf = 0 /\ ni = 0)%nat \/ (0 < nf /\ 0 < ni)%nat)
  /\ (forall n rest,
        int64_list_value sr_feat = n :: rest -> nf = 0%nat ->
        result = inr n)
  /\ (forall x rest,
        float_list_value sr_feat = x :: rest -> ni = 0%nat ->
        result = py_int_of_float x
        /\ forall s m e, x = S754_finite s m e ->
             result = inr (if 0 <=? e
                           then (if s then Z.neg m else Z.pos m) * 2 ^ e
                           else Z.quot (if s then Z.neg m else Z.pos m)
                                       (2 ^ (- e)))).
Proof.
  intros Hkey Htruthy Hfeat. cbn zeta.
  unfold _read_sample_rate_from_tfexample, MalformedRateError.
  rewrite Hkey. cbn [truthy_opt_str]. rewrite Htruthy.
  change (default EmptyString (Some key)) with key. rewrite Hfeat.
  destruct sr_feat as [| bs | fs | ns]; cbn [float_list_value int64_list_value].
  - (* no list set *)
    simpl. repeat split.
    + intros _. left. split; reflexivity.
    + intros _. eexists. split; reflexivity.
    + discriminate.
    + discriminate.
    + discriminate.
  - simpl. repeat split.
    + intros _. left. split; reflexivity.
    + intros _. eexists. split; reflexivity.
    + discriminate.
    + discriminate.
    + discriminate.
  - destruct fs as [| x fs'].
    + simpl. repeat split; try discriminate.
      * intros _. left. split; reflexivity.
      * intros _. eexists. split; reflexivity.
    + assert (Hx : truthy_int (Z.lxor (Z.of_nat (length (x :: fs')))
                                 (Z.of_nat (@length Z []))) = true)
        by reflexivity.
      rewrite Hx. cbn [negb]. repeat split.
      * intros (e & He & ->). simpl in He. exfalso.
        destruct x; simpl in He; discriminate He.
      * intros [[H _] | [_ H]]; simpl in H; lia.
      * discriminate.
      * injection H as <- _. reflexivity.
      * injection H as <- _. intros s m e ->. reflexivity.
  - destruct ns as [| n ns'].
    + simpl. repeat split; try discriminate.
      * intros _. left. split; reflexivity.
      * intros _. eexists. split; reflexivity.
    + assert (Hx : truthy_int (Z.lxor (Z.of_nat (@length spec_float []))
                                 (Z.of_nat (length (n :: ns')))) = true)
        by reflexivity.
      rewrite Hx. cbn [negb]. repeat split; try discriminate.
      * intros (e & He & ->). simpl in He. discriminate He.
      * intros [[_ H] | [H _]]; simpl in H; lia.
      * intros n0 rest [= <- _] _. reflexivity.
Qed.

Lemma read_sample_rate_from_field_witness :
  outcome (_read_sample_rate_from_tfexample (Y:=unit)
             (Fixtures.stage_A (Some "sr"%string) None true None np.float32)
             Fixtures.ex1)
  = inr 16000.
Proof.
  pose proof (read_sample_rate_from_field (Y:=unit)
                (Fixtures.stage_A (Some "sr"%string) None true None
                   np.float32)
                Fixtures.ex1 "sr" (float_list [Fixtures.rate_16000])
                eq_refl eq_refl eq_refl) as H.
  cbn zeta in H. destruct H as (_ & _ & H).
  destruct (H Fixtures.rate_16000 [] eq_refl eq_refl) as [_ Hfin].
  rewrite (Hfin false 125%positive 7 eq_refl). reflexivity.
Defined.

(** ** Sample-rate configuration *)

(** C3, as stated, fails for a fixed rate of 0: exactly one of the two
    options is set and construction succeeds, but the guard in
    [_read_sample_rate_from_tfexample] tests truthiness and raises the
    configuration error while the record is processed. *)
Lemma zero_sample_rate_counterexample :
  let self := Fixtures.stage_A None (Some 0) true None np.float32 in
  (exists constructed,
      ComputeEmbeddingMapFn__init__ "trill" tt (KeyStr "embedding") "audio"
        None (Some 0) true None true None 16000
        (Fixtures.model_stub np.float32) (fun _ => tt)
      = inr constructed
      /\ setup constructed = self)
  /\ (exists e,
         outcome (ComputeEmbeddingMapFn_process Fixtures.libs self
                    ("k"%string, Fixtures.ex1))
         = inl e
         /\ ConfigurationError e).
Proof.
  split.
  - eexists. split; reflexivity.
  - eexists. split; [reflexivity |]. right. reflexivity.
Qed.

Section Configuration.
Context {F Mod Handle : Type}.
Variable libs : Imports F Handle.
Variables (name : string) (module : Mod) (output_key : pykey)
          (audio_key : string) (sample_rate_key : option string)
          (sample_rate : option Z) (average_over_time : bool)
          (feature_fn : option (np.ndarray F -> Z -> exn + pyobj F))
          (normalize_to_pm_one : bool) (model_input_min_length : option Z)
          (target_sample_rate : Z)
          (module_call_fn :
             np.ndarray F -> Z -> Handle -> pykey -> string
             -> exn + pyobj F)
          (setup_fn : Mod -> Handle)
          (embedding_names : list string) (chunk_len : option Z)
          (embedding_length : option Z)
          (label_key speaker_id_key : option string)
          (module_call_fn2 :
             np.ndarray F -> Handle -> exn + gmap string (np.ndarray F))
          (compute_embeddings_on_chunked_audio : bool).

Let init_A :=
  ComputeEmbeddingMapFn__init__ name module output_key audio_key
    sample_rate_key sample_rate average_over_time feature_fn
    normalize_to_pm_one model_input_min_length target_sample_rate
    module_call_fn setup_fn.

Let init_B :=
  ComputeMultipleEmbeddingsFromSingleModel__init__ libs name module
    output_key audio_key sample_rate_key sample_rate average_over_time
    feature_fn normalize_to_pm_one model_input_min_length
    target_sample_rate setup_fn embedding_names chunk_len
    embedding_length module_call_fn2.

Let init_C :=
  ChunkAudioAndComputeEmbeddings__init__ libs name module output_key
    audio_key sample_rate_key sample_rate average_over_time feature_fn
    normalize_to_pm_one model_input_min_length target_sample_rate
    setup_fn embedding_names chunk_len embedding_length label_key
    speaker_id_key module_call_fn2 compute_embeddings_on_chunked_audio.

(** C3 (amended).  With both of [sample_rate] and [sample_rate_key] set,
    or neither, each of the three constructors raises the configuration
    error.  With exactly one set the base constructor succeeds, and if
    the one that is set is truthy (a non-empty key, a non-zero rate) the
    stage raises no configuration error when it resolves the rate of a
    record. *)
Theorem sample_rate_configuration :
  (is_None sample_rate_key = is_None sample_rate ->
   exists e, ConfigurationError e
             /\ init_A = inl e /\ init_B = inl e /\ init_C = inl e)
  /\ (is_None sample_rate_key <> is_None sample_rate ->
      exists self,
        init_A = inr self
        /\ _sample_rate_key self = sample_rate_key
        /\ _sample_rate self = sample_rate
        /\ (truthy_opt_str sample_rate_key || truthy_opt_int sample_rate
            = true ->
            forall (Y : Type) (ex : Example) (e : exn),
              outcome (_read_sample_rate_from_tfexample (Y:=Y) self ex)
              = inl e ->
              ~ ConfigurationError e)).
Proof.
  unfold init_A, init_B, init_C,
    ChunkAudioAndComputeEmbeddings__init__,
    ComputeMultipleEmbeddingsFromSingleModel__init__,
    ComputeEmbeddingMapFn__init__.
  split.
  - intros Heq.
    exists (ValueError
              "Must have exactly one sample_rate_key or sample_rate: ").
    split; [left; reflexivity |].
    rewrite Heq, xorb_nilpotent. repeat split.
  - intros Hne.
    assert (Hx : xorb (is_None sample_rate_key) (is_None sample_rate)
                 = true).
    { destruct (is_None sample_rate_key), (is_None sample_rate);
        simpl; congruence. }
    rewrite Hx. cbn [negb]. eexists. split; [reflexivity |].
    cbn [_sample_rate_key _sample_rate].
    split; [reflexivity |]. split; [reflexivity |].
    intros Htruthy Y ex e.
    unfold _read_sample_rate_from_tfexample.
    cbn [_sample_rate_key _sample_rate].
    destruct sample_rate_key as [key |], sample_rate as [r |];
      simpl in Hne; try congruence.
    + (* the rate comes from the field [key] *)
      simpl in Htruthy. rewrite orb_false_r in Htruthy.
      cbn [truthy_opt_str]. rewrite Htruthy.
      change (default EmptyString (Some key)) with key.
      intros H [-> | ->].
      * destruct (ex !! key) as [sr_feat |]; [| discriminate H].
        destruct sr_feat as [| bs | [| x fs] | [| n ns]];
          try discriminate H.
        destruct x; discriminate H.
      * destruct (ex !! key) as [sr_feat |]; [| discriminate H].
        destruct sr_feat as [| bs | [| x fs] | [| n ns]];
          try discriminate H.
        destruct x; discriminate H.
    + (* the fixed rate [r] *)
      simpl in Htruthy. cbn [truthy_opt_str truthy_opt_int].
      rewrite Htruthy. simpl. discriminate.
Qed.

End Configuration.

Lemma sample_rate_configuration_witness :
  exists self,
    ComputeEmbeddingMapFn__init__ "trill" tt (KeyStr "embedding") "audio"
      None (Some 16000) true None true None 16000
      (Fixtures.model_stub np.float32) (fun _ => tt)
    = inr self
    /\ forall e,
         outcome (_read_sample_rate_from_tfexample (Y:=unit) self
                    Fixtures.ex1) = inl e ->
         ~ ConfigurationError e.
Proof.
  destruct (proj2 (sample_rate_configuration (F:=Z) Fixtures.libs
              "trill" tt (KeyStr "embedding") "audio" None (Some 16000)
              true None true None 16000 (Fixtures.model_stub np.float32)
              (fun _ => tt) [] None None None None Fixtures.multi_stub true))
    as (self & Hinit & _ & _ & H).
  { simpl. discriminate. }
  exists self. split; [exact Hinit |].
  intros e. apply H. reflexivity.
Defined.

(** ** Feature projection *)

(** C6. Without a custom feature function and with a minimum input length
    configured: a waveform at least that long is returned as it is, with
    no effect; a shorter (1-D, non-empty) waveform is returned padded to
    exactly the minimum length, the original samples first, each appended
    sample being the input sample at the mirrored index (for a single
    reflection: the last samples in reverse order). *)
Theorem audio_to_features_padding {F Mod Handle Y : Type}
    (self : @ComputeEmbeddingMapFn F Mod Handle) (audio : np.ndarray F)
    (sample_rate min_length : Z) :
  _feature_fn self = None ->
  _model_input_min_length self = Some min_length ->
  (min_length <= Z.of_nat (np.size audio) ->
   _audio_to_features (Y:=Y) self audio sample_rate = ret audio)
  /\ (forall n : nat,
        np.shape audio = [n] -> length (np.data audio) = n -> (0 < n)%nat ->
        Z.of_nat n < min_length ->
        exists out,
          _audio_to_features (Y:=Y) self audio sample_rate = ret out
          /\ np.shape out = [Z.to_nat min_length]
          /\ length (np.data out) = Z.to_nat min_length
          /\ np.arr_dtype out = np.arr_dtype audio
          /\ firstn n (np.data out) = np.data audio
          /\ (forall i, (n <= i < Z.to_nat min_length)%nat ->
                np.data out !! i = np.data audio !! np.mirror_index n i)
          /\ ((Z.to_nat min_length <= 2 * n)%nat ->
              skipn n (np.data out)
              = firstn (Z.to_nat min_length - n) (reverse (np.data audio)))).
Proof.
  intros Hfn Hmin. unfold _audio_to_features. rewrite Hfn, Hmin.
  cbn [truthy_opt_int default from_option id]. split.
  - intros Hle.
    assert (Hlt : (Z.of_nat (np.size audio) <? min_length) = false)
      by (apply Z.ltb_ge; exact Hle).
    rewrite Hlt, andb_false_r. reflexivity.
  - intros n Hshape Hlen Hn Hshort.
    assert (Hsize : np.size audio = n).
    { unfold np.size. rewrite Hshape. simpl. lia. }
    rewrite Hsize.
    assert (Htr : truthy_int min_length = true).
    { unfold truthy_int. apply negb_true_iff, Z.eqb_neq. lia. }
    assert (Hlt : (Z.of_nat n <? min_length) = true)
      by (apply Z.ltb_lt; exact Hshort).
    rewrite Htr, Hlt. cbn [andb].
    assert (Hx : np.data audio <> []).
    { intros H. rewrite H in Hlen. simpl in Hlen. lia. }
    set (delta := Z.to_nat (min_length - Z.of_nat n)).
    assert (Hdelta : (n + delta)%nat = Z.to_nat min_length)
      by (unfold delta; lia).
    unfold np.pad_symmetric_after. rewrite Hshape.
    destruct delta as [| d] eqn:Hd; [lia |].
    destruct n as [| n']; [lia |].
    eexists. split; [reflexivity |].
    cbn [np.shape np.data np.arr_dtype].
    rewrite <- Hd in *. clear Hd.
    split; [rewrite Hdelta; reflexivity |].
    split.
    { rewrite length_app, symmetric_tail_length by exact Hx. lia. }
    split; [reflexivity |].
    split.
    { rewrite <- Hlen. apply take_app_length. }
    split.
    { intros i Hi. rewrite lookup_app_r by lia.
      rewrite symmetric_tail_lookup by (try exact Hx; lia).
      rewrite Hlen. f_equal. f_equal. lia. }
    intros Hsingle. rewrite <- Hlen at 1. rewrite drop_app_length.
    rewrite symmetric_tail_single_reflection by lia.
    f_equal. lia.
Qed.

Lemma audio_to_features_padding_witness :
  exists out,
    _audio_to_features (Y:=unit)
      (Fixtures.stage_A None (Some 16000) true (Some 7) np.float32)
      (np.mk_ndarray np.float32 [3%nat] [1; 2; 3]) 16000 = ret out
    /\ np.data out = [1; 2; 3; 3; 2; 1; 1].
Proof.
  destruct (proj2 (audio_to_features_padding (Y:=unit)
                     (Fixtures.stage_A None (Some 16000) true (Some 7)
                        np.float32)
                     (np.mk_ndarray np.float32 [3%nat] [1; 2; 3]) 16000 7
                     eq_refl eq_refl)
                  3%nat eq_refl eq_refl ltac:(lia) ltac:(lia))
    as (out & Hrun & _).
  exists out. split; [exact Hrun |].
  injection Hrun as <-. reflexivity.
Defined.

(** ** Chunking *)

(** C5. With a chunk length configured and [utils.get_chunked_audio_fn] as
    the spec describes it (either remainder policy): a model input at
    least [chunk_len] long is split into at least one chunk, every chunk
    has exactly [chunk_len] samples, and sample [j] of chunk [i] is input
    sample [i * chunk_len + j] (contiguous, non-overlapping); a shorter
    input is left as it is and becomes a single chunk holding exactly the
    original samples, with no padding. *)
Theorem chunking_segments {F Mod Handle Y : Type}
    (policy : remainder_policy F) (libs : Imports F Handle)
    (self : @ComputeMultipleEmbeddingsFromSingleModel F Mod Handle)
    (k : string) (ex : Example) (model_input : np.ndarray F)
    (sr chunk_len : Z) (n : nat) :
  outcome (read_and_preprocess_audio (with_spec_chunker policy libs) (Y:=Y)
             (super_ self) k ex) = inr (model_input, sr) ->
  _chunk_len self = Some chunk_len ->
  0 < chunk_len ->
  np.shape model_input = [n] ->
  length (np.data model_input) = n ->
  (chunk_len <= Z.of_nat n ->
   exists chunked num,
     outcome (tfex_to_chunked_audio (with_spec_chunker policy libs) (Y:=Y)
                self k ex) = inr (chunked, sr)
     /\ expand_if_1d chunked = chunked
     /\ np.shape chunked = [num; Z.to_nat chunk_len]
     /\ (1 <= n / Z.to_nat chunk_len <= num)%nat
     /\ forall i, (i < num)%nat ->
          exists chunk,
            np.getitem chunked i = inr chunk
            /\ np.shape chunk = [Z.to_nat chunk_len]
            /\ length (np.data chunk) = Z.to_nat chunk_len
            /\ forall j, (j < Z.to_nat chunk_len)%nat ->
                 (i * Z.to_nat chunk_len + j < n)%nat ->
                 np.data chunk !! j
                 = np.data model_input !! (i * Z.to_nat chunk_len + j)%nat)
  /\ (Z.of_nat n < chunk_len ->
      outcome (tfex_to_chunked_audio (with_spec_chunker policy libs) (Y:=Y)
                 self k ex) = inr (model_input, sr)
      /\ np.shape (expand_if_1d model_input) = [1%nat; n]
      /\ np.getitem (expand_if_1d model_input) 0 = inr model_input).
Proof.
  intros Hrp Hchunk Hpos Hshape Hlen.
  assert (Htr : truthy_opt_int (Some chunk_len) = true).
  { unfold truthy_opt_int, truthy_int. apply negb_true_iff, Z.eqb_neq. lia. }
  assert (Hs0 : np.shape_at model_input 0 = inr n).
  { unfold np.shape_at. rewrite Hshape. reflexivity. }
  unfold tfex_to_chunked_audio.
  rewrite (outcome_bind_inr _ _ _ Hrp). rewrite Hchunk, Htr.
  cbn [default from_option id]. rewrite Hs0, bind_lift_inr.
  cbn [get_chunked_audio_fn with_spec_chunker].
  split.
  - intros Hge.
    assert (Hleb : (chunk_len <=? Z.of_nat n) = true)
      by (apply Z.leb_le; exact Hge).
    rewrite Hleb.
    destruct (spec_chunker_rows policy model_input chunk_len n
                Hshape Hlen Hpos)
      as (chunked & num & Hspec & Hsh & _ & Hdata & Hnum & Hrows).
    set (c := Z.to_nat chunk_len) in *.
    assert (Hc : (0 < c)%nat) by (unfold c; lia).
    exists chunked, num. rewrite Hspec, bind_lift_inr.
    split; [reflexivity |].
    split; [exact (expand_if_1d_2d chunked num c Hsh) |].
    split; [exact Hsh |].
    split.
    { split; [| exact Hnum].
      apply Nat.div_le_lower_bound; lia. }
    intros i Hi. eexists. split; [exact (getitem_2d chunked num c i Hsh Hi) |].
    cbn [np.shape np.data].
    split; [reflexivity |]. split.
    + rewrite length_take, length_drop, Hdata. nia.
    + intros j Hj Hin. rewrite lookup_take_lt by exact Hj.
      rewrite lookup_drop. apply Hrows; assumption.
  - intros Hlt.
    assert (Hleb : (chunk_len <=? Z.of_nat n) = false)
      by (apply Z.leb_gt; exact Hlt).
    rewrite Hleb, bind_ret_l.
    split; [reflexivity |].
    rewrite (expand_if_1d_1d model_input n Hshape).
    split; [reflexivity |].
    unfold np.getitem. cbn [np.shape np.arr_dtype np.data].
    rewrite prod_shape_singleton. simpl skipn.
    rewrite <- Hlen, firstn_all.
    destruct model_input as [dt sh buf]. simpl in *. rewrite Hshape, Hlen.
    reflexivity.
Qed.

Lemma chunking_segments_witness :
  exists chunked,
    outcome (tfex_to_chunked_audio
               (with_spec_chunker DropRemainder Fixtures.libs) (Y:=unit)
               (Fixtures.stage_B true (Some 2)) "k" Fixtures.ex1)
    = inr (chunked, 16000)
    /\ np.getitem chunked 1
       = inr (np.mk_ndarray np.float32 [2%nat] [3; 4]).
Proof.
  destruct (proj1 (chunking_segments (Y:=unit) DropRemainder Fixtures.libs
                     (Fixtures.stage_B true (Some 2)) "k" Fixtures.ex1
                     (np.mk_ndarray np.float32 [5%nat] [1; 2; 3; 4; 5])
                     16000 2 5%nat eq_refl eq_refl ltac:(lia) eq_refl
                     eq_refl)
                  ltac:(lia))
    as (chunked & num & Hrun & _).
  exists chunked. split; [exact Hrun |].
  injection Hrun as <-. reflexivity.
Defined.

(** ** Resampling *)

(** C8. When the rate resolved for a record equals the target rate,
    [read_and_preprocess_audio] is the audio extraction followed by the
    feature projection of exactly the extracted waveform at that rate: the
    resampler is not called. *)
Theorem matching_rate_skips_resampling {F Mod Handle Y : Type}
    (libs : Imports F Handle) (self : @ComputeEmbeddingMapFn F Mod Handle)
    (k : string) (ex : Example) (audio : np.ndarray F) (rate : Z) :
  outcome (_read_audio_from_tfexample libs (Y:=Y) self ex k
             (_normalize_to_pm_one self)) = inr audio ->
  outcome (_read_sample_rate_from_tfexample (Y:=Y) self ex) = inr rate ->
  rate = _target_sample_rate self ->
  read_and_preprocess_audio libs (Y:=Y) self k ex
  = (let* extracted :=
       _read_audio_from_tfexample libs self ex k
         (_normalize_to_pm_one self) in
     let* model_input := _audio_to_features self extracted rate in
     ret (model_input, rate))
  /\ outcome (read_and_preprocess_audio libs (Y:=Y) self k ex)
     = outcome (let* model_input := _audio_to_features (Y:=Y) self audio rate in
                ret (model_input, rate))
  /\ log_without is_ResampleCall
       (read_and_preprocess_audio libs (Y:=Y) self k ex).
Proof.
  intros Haudio Hrate Htarget.
  assert (Heq : read_and_preprocess_audio libs (Y:=Y) self k ex
                = (let* extracted :=
                     _read_audio_from_tfexample libs self ex k
                       (_normalize_to_pm_one self) in
                   let* model_input :=
                     _audio_to_features self extracted rate in
                   ret (model_input, rate))).
  { unfold read_and_preprocess_audio. apply bind_congr. intros a _.
    rewrite (run_pure _ rate (read_sample_rate_log self ex)
               (read_sample_rate_silent self ex) Hrate).
    rewrite bind_ret_l, Htarget, Z.eqb_refl. cbn [negb].
    rewrite bind_ret_l. reflexivity. }
  split; [exact Heq |]. split.
  - rewrite Heq, (outcome_bind_inr _ _ _ Haudio). reflexivity.
  - rewrite Heq. apply log_without_bind.
    + apply read_audio_no_resample.
    + intros a. apply log_without_bind.
      * apply audio_to_features_no_resample.
      * intros mi. apply log_without_ret.
Qed.

Lemma matching_rate_skips_resampling_witness :
  log (read_and_preprocess_audio Fixtures.libs (Y:=unit)
         (Fixtures.stage_A (Some "sr"%string) None true None np.float32)
         "k" Fixtures.ex1)
  = [MetricsDistributionUpdate "computed-embedding-audio" "length" 5]
  /\ log_without is_ResampleCall
       (read_and_preprocess_audio Fixtures.libs (Y:=unit)
          (Fixtures.stage_A (Some "sr"%string) None true None np.float32)
          "k" Fixtures.ex1).
Proof.
  split; [reflexivity |].
  apply (matching_rate_skips_resampling (Y:=unit) Fixtures.libs
           (Fixtures.stage_A (Some "sr"%string) None true None np.float32)
           "k" Fixtures.ex1
           (np.mk_ndarray np.float32 [5%nat] [1; 2; 3; 4; 5]) 16000
           eq_refl eq_refl eq_refl).
Defined.

(** ** The single-embedding stage *)

(** C4. When the model call of [ComputeEmbeddingMapFn.process] returns
    something that is not an array, or an array that is not 2-D, or not
    [float32], the run ends with the contract-violation [ValueError] and
    has yielded nothing. *)
Theorem stage_A_contract_violation {F Mod Handle : Type}
    (libs : Imports F Handle) (self : @ComputeEmbeddingMapFn F Mod Handle)
    (k : string) (ex : Example) (model_input : np.ndarray F)
    (sample_rate : Z) (handle : Handle) (returned : pyobj F) :
  outcome (read_and_preprocess_audio libs (Y:=string * np.ndarray F)
             self k ex)
  = inr (model_input, sample_rate) ->
  post_setup_module self = Some handle ->
  _module_call_fn self model_input sample_rate handle (_output_key self)
    (_name self) = inr returned ->
  ((exists type_name, returned = PyOther type_name)
   \/ (exists a, returned = PyNdarray a
                 /\ (np.ndim a <> 2%nat \/ np.arr_dtype a <> np.float32))) ->
  (exists e,
      outcome (ComputeEmbeddingMapFn_process libs self (k, ex)) = inl e
      /\ EmbeddingContractViolation e)
  /\ yielded (ComputeEmbeddingMapFn_process libs self (k, ex)) = [].
Proof.
  intros Hrp Hhandle Hcall Hbad.
  unfold ComputeEmbeddingMapFn_process.
  rewrite (outcome_bind_inr _ _ _ Hrp), (yielded_bind_inr _ _ _ Hrp).
  rewrite (read_and_preprocess_audio_silent libs self k ex).
  unfold get_post_setup_module. rewrite Hhandle, bind_ret_l, bind_tell.
  cbn [outcome yielded app]. rewrite Hcall, bind_lift_inr.
  unfold EmbeddingContractViolation.
  destruct Hbad as [[type_name ->] | (a & -> & Hbad)].
  - split; [| reflexivity]. eexists. split; [reflexivity |]. auto.
  - destruct (np.ndim a =? 2)%nat eqn:Hdim; cbn [negb].
    + destruct (np.dtype_eqb (np.arr_dtype a) np.float32) eqn:Hdt; cbn [negb].
      * exfalso. apply Nat.eqb_eq in Hdim. apply dtype_eqb_eq in Hdt.
        destruct Hbad; contradiction.
      * split; [| reflexivity]. eexists. split; [reflexivity |]. auto.
    + split; [| reflexivity]. eexists. split; [reflexivity |]. auto.
Qed.

Lemma stage_A_contract_violation_witness :
  outcome (ComputeEmbeddingMapFn_process Fixtures.libs
             (Fixtures.stage_A None (Some 16000) true None np.float64)
             ("k"%string, Fixtures.ex1))
  = inl (ValueError "`embedding_2d` wrong type: ")
  /\ yielded (ComputeEmbeddingMapFn_process Fixtures.libs
                (Fixtures.stage_A None (Some 16000) true None np.float64)
                ("k"%string, Fixtures.ex1)) = [].
Proof.
  assert (Hrp :
    outcome (read_and_preprocess_audio Fixtures.libs
               (Y:=string * np.ndarray Z)
               (Fixtures.stage_A None (Some 16000) true None np.float64)
               "k" Fixtures.ex1)
    = inr (np.mk_ndarray np.float32 [5%nat] [1; 2; 3; 4; 5], 16000))
    by (vm_compute; reflexivity).
  assert (Hbad :
    (exists type_name,
        PyNdarray (np.mk_ndarray np.float64 [2; 2]%nat [1; 2; 3; 4])
        = PyOther type_name)
    \/ (exists a,
           PyNdarray (np.mk_ndarray np.float64 [2; 2]%nat [1; 2; 3; 4])
           = PyNdarray a
           /\ (np.ndim a <> 2%nat \/ np.arr_dtype a <> np.float32))).
  { right. eexists. split; [reflexivity |]. right. discriminate. }
  pose proof (stage_A_contract_violation Fixtures.libs
                (Fixtures.stage_A None (Some 16000) true None np.float64)
                "k" Fixtures.ex1
                (np.mk_ndarray np.float32 [5%nat] [1; 2; 3; 4; 5]) 16000 tt
                (PyNdarray
                   (np.mk_ndarray np.float64 [2; 2]%nat [1; 2; 3; 4]))
                Hrp eq_refl eq_refl Hbad)
    as [_ Hyield].
  split; [vm_compute; reflexivity | exact Hyield].
Defined.

(** ** The chunked stage *)

(** X1. In [ChunkAudioAndComputeEmbeddings.process] the flag
    [compute_embeddings_on_chunked_audio] changes neither the yielded
    records nor the outcome nor the model calls: the model is called on
    the chunked audio either way, and the input computed when the flag is
    false is dropped. *)
Theorem chunked_flag_irrelevant {F Mod Handle : Type}
    (libs : Imports F Handle)
    (base : @ComputeMultipleEmbeddingsFromSingleModel F Mod Handle)
    (label_key speaker_id_key : option string) (k : string) (ex : Example) :
  let stage flag :=
    {| super_2 := base; _label_key := label_key;
       _speaker_id_key := speaker_id_key;
       _compute_embeddings_on_chunked_audio := flag |} in
  let process flag :=
    ChunkAudioAndComputeEmbeddings_process libs (stage flag) (k, ex) in
  yielded (process false) = yielded (process true)
  /\ outcome (process false) = outcome (process true)
  /\ List.filter is_ModuleCall (log (process false))
     = List.filter is_ModuleCall (log (process true))
  /\ forall flag chunked sr handle,
       outcome (tfex_to_chunked_audio libs
                  (Y:=string * np.ndarray F * option bytes * option bytes
                      * gmap string (np.ndarray F))
                  base k ex) = inr (chunked, sr) ->
       post_setup_module (super_ base) = Some handle ->
       List.filter is_ModuleCall (log (process flag))
       = [ModuleCall (expand_if_1d chunked)].
Proof.
  intros stage process. unfold process, stage,
    ChunkAudioAndComputeEmbeddings_process.
  cbn [super_2 _compute_embeddings_on_chunked_audio _label_key
       _speaker_id_key].
  pose proof (tfex_to_chunked_audio_no_module_call libs
                (Y:=string * np.ndarray F * option bytes * option bytes
                    * gmap string (np.ndarray F)) base k ex) as Hnomc.
  unfold log_without in Hnomc.
  destruct (outcome (tfex_to_chunked_audio libs base k ex))
    as [e | [chunked sr]] eqn:Htfex.
  - (* chunking failed: the flag is never read *)
    rewrite !(yielded_bind_inl _ _ _ Htfex), !(outcome_bind_inl _ _ _ Htfex),
      !(log_bind_inl _ _ _ Htfex).
    repeat split. intros flag c s h H. discriminate H.
  - destruct (tfex_to_chunked_audio_inr libs base k ex _ Htfex)
      as [[mi sr'] Hrp].
    pose proof (read_and_preprocess_audio_silent libs
                  (Y:=string * np.ndarray F * option bytes * option bytes
                      * gmap string (np.ndarray F))
                  (super_ base) k ex) as Hsil.
    pose proof (read_and_preprocess_audio_no_module_call libs
                  (Y:=string * np.ndarray F * option bytes * option bytes
                      * gmap string (np.ndarray F))
                  (super_ base) k ex) as Hrpmc.
    unfold silent in Hsil. unfold log_without in Hrpmc.
    rewrite !(yielded_bind_inr _ _ _ Htfex), !(outcome_bind_inr _ _ _ Htfex),
      !(log_bind_inr _ _ _ Htfex).
    cbn beta iota zeta. rewrite bind_ret_l, bind_assoc.
    rewrite (yielded_bind_inr _ _ _ Hrp), (outcome_bind_inr _ _ _ Hrp),
      (log_bind_inr _ _ _ Hrp).
    cbn beta iota. rewrite bind_ret_l, Hsil.
    rewrite !List.filter_app, Hrpmc, Hnomc. cbn [app].
    split; [reflexivity |]. split; [reflexivity |]. split; [reflexivity |].
    intros flag c s handle [= <- <-] Hhandle.
    assert (Hrest :
      List.filter is_ModuleCall
        (log (let* handle := get_post_setup_module (super_ base) in
              let* _ := tell (ModuleCall (expand_if_1d chunked)) in
              let* tf_out :=
                lift (_module_call_fn2 base (expand_if_1d chunked) handle) in
              let* cur_embs :=
                list_comp (_output_keys base)
                  (fun okey => match tf_out !! okey with
                               | Some t => ret t
                               | None => raise (KeyError okey)
                               end) in
              let* _ :=
                for_each cur_embs
                  (fun emb => if negb (np.ndim emb =? 3)%nat then
                                raise (ValueError "Wrong output dims: ")
                              else ret tt) in
              let* embedding_3ds :=
                (if _average_over_time (super_ base) then
                   list_comp cur_embs
                     (fun x => lift (np.mean (reduce_mean libs) x 1 true))
                 else ret cur_embs) in
              let* _ :=
                for_each embedding_3ds
                  (check_embedding_3d (stage flag) (expand_if_1d chunked)) in
              let* label :=
                (if truthy_opt_str label_key then
                   let* l := lift (_get_label
                                     (default EmptyString label_key) ex) in
                   ret (Some l)
                 else ret None) in
              let* speaker_id :=
                (if truthy_opt_str speaker_id_key then
                   let* s := lift (_get_speaker_id
                                     (default EmptyString speaker_id_key)
                                     ex) in
                   ret (Some s)
                 else ret None) in
              let* n := lift (np.shape_at (expand_if_1d chunked) 0) in
              for_each (seq 0 n)
                (fun i =>
                   let cur_k := k +:+ "_" +:+ py_str_int (Z.of_nat i) in
                   let* cur_audio :=
                     lift (np.getitem (expand_if_1d chunked) i) in
                   let* out_dict :=
                     slice_dict i
                       (combine (_embedding_names base) embedding_3ds) ∅ in
                   yield_ (cur_k, cur_audio, label, speaker_id, out_dict))
              : run (event F)
                  (string * np.ndarray F * option bytes * option bytes
                   * gmap string (np.ndarray F)) unit))
      = [ModuleCall (expand_if_1d chunked)]).
    { unfold get_post_setup_module. rewrite Hhandle, bind_ret_l, bind_tell.
      cbn [log List.filter is_ModuleCall]. f_equal.
      apply (log_without_bind is_ModuleCall); [apply log_without_lift |].
      intros tf_out.
      apply log_without_bind.
      { apply log_without_list_comp. intros okey.
        destruct (tf_out !! okey); reflexivity. }
      intros cur_embs. apply log_without_bind.
      { apply log_without_for_each. intros emb.
        destruct (negb (np.ndim emb =? 3)%nat); reflexivity. }
      intros _. apply log_without_bind.
      { destruct (_average_over_time (super_ base)); [| reflexivity].
        apply log_without_list_comp. intros x. apply log_without_lift. }
      intros embedding_3ds. apply log_without_bind.
      { apply log_without_for_each. intros x. unfold log_without.
        rewrite check_embedding_3d_log. reflexivity. }
      intros _. apply log_without_bind.
      { destruct (truthy_opt_str label_key); effect_free. }
      intros label. apply log_without_bind.
      { destruct (truthy_opt_str speaker_id_key); effect_free. }
      intros speaker_id. apply log_without_bind; [apply log_without_lift |].
      intros n. apply log_without_for_each. intros i.
      apply log_without_bind; [apply log_without_lift |]. intros cur_audio.
      apply log_without_bind.
      { unfold log_without. rewrite slice_dict_log. reflexivity. }
      intros out_dict. reflexivity. }
    rewrite (log_bind_inr _ _ _ Htfex), List.filter_app, Hnomc.
    destruct flag; cbn beta iota zeta.
    + rewrite bind_ret_l. exact Hrest.
    + rewrite bind_assoc, (log_bind_inr _ _ _ Hrp).
      cbn beta iota. rewrite bind_ret_l, List.filter_app, Hrpmc.
      exact Hrest.
Qed.

(** Walks through a method body to show that its log has no event of a
    kind. *)
Ltac log_free :=
  repeat first
    [ apply log_without_ret | apply log_without_raise
    | apply log_without_lift | apply log_without_assert
    | apply log_without_bind; [| intros ?]
    | apply log_without_for_each; intros ?
    | apply log_without_list_comp; intros ?
    | unfold log_without; rewrite check_embedding_3d_log; reflexivity
    | unfold log_without; rewrite slice_dict_log; reflexivity
    | match goal with
      | |- log_without _ (if ?c then _ else _) => destruct c
      | |- log_without _ (match ?x with _ => _ end) => destruct x
      end
    | reflexivity ].

Section ChunkedModelCall.
Context {F Mod Handle : Type}.
Variable libs : Imports F Handle.
Implicit Types (self : @ChunkAudioAndComputeEmbeddings F Mod Handle).

Local Abbreviation chunk_record :=
  (string * np.ndarray F * option bytes * option bytes
   * gmap string (np.ndarray F))%type.

(** The model calls of a run: one, on the chunked audio, once chunking has
    succeeded and the module is loaded; none otherwise. *)
Lemma chunked_process_module_calls self (k : string) (ex : Example) :
  List.filter is_ModuleCall
    (log (ChunkAudioAndComputeEmbeddings_process libs self (k, ex)))
  = match outcome (tfex_to_chunked_audio libs (Y:=chunk_record)
                     (super_2 self) k ex),
          post_setup_module (super_ (super_2 self)) with
    | inr (chunked, _), Some _ => [ModuleCall (expand_if_1d chunked)]
    | _, _ => []
    end.
Proof.
  unfold ChunkAudioAndComputeEmbeddings_process.
  pose proof (tfex_to_chunked_audio_no_module_call libs (Y:=chunk_record)
                (super_2 self) k ex) as Hnomc.
  unfold log_without in Hnomc.
  destruct (outcome (tfex_to_chunked_audio libs (super_2 self) k ex))
    as [e | [chunked sr]] eqn:Htfex.
  - rewrite (log_bind_inl _ _ _ Htfex). exact Hnomc.
  - destruct (tfex_to_chunked_audio_inr libs (super_2 self) k ex _ Htfex)
      as [[mi sr'] Hrp].
    pose proof (read_and_preprocess_audio_no_module_call libs
                  (Y:=chunk_record) (super_ (super_2 self)) k ex) as Hrpmc.
    unfold log_without in Hrpmc.
    rewrite (log_bind_inr _ _ _ Htfex), List.filter_app, Hnomc.
    cbn beta iota zeta. cbn [app].
    destruct (_compute_embeddings_on_chunked_audio self).
    all: rewrite ?bind_ret_l, ?bind_assoc, ?(log_bind_inr _ _ _ Hrp);
      cbn beta iota; rewrite ?bind_ret_l, ?List.filter_app, ?Hrpmc;
      cbn [app]; unfold get_post_setup_module;
      destruct (post_setup_module (super_ (super_2 self))) as [handle |];
      [| rewrite bind_raise; reflexivity];
      rewrite bind_ret_l, bind_tell;
      cbn [log List.filter is_ModuleCall]; f_equal;
      apply (log_without_bind is_ModuleCall); [apply log_without_lift |];
      intros tf_out; log_free.
Qed.

(** The flag changes neither what a run yields nor how it ends. *)
Lemma chunked_process_flag self (b : bool) (k : string) (ex : Example) :
  yielded (ChunkAudioAndComputeEmbeddings_process libs
             (with_compute_embeddings_on_chunked_audio b self) (k, ex))
  = yielded (ChunkAudioAndComputeEmbeddings_process libs self (k, ex))
  /\ outcome (ChunkAudioAndComputeEmbeddings_process libs
                (with_compute_embeddings_on_chunked_audio b self) (k, ex))
     = outcome (ChunkAudioAndComputeEmbeddings_process libs self (k, ex)).
Proof.
  unfold ChunkAudioAndComputeEmbeddings_process.
  cbn [with_compute_embeddings_on_chunked_audio super_2 _label_key
       _speaker_id_key _compute_embeddings_on_chunked_audio].
  destruct (outcome (tfex_to_chunked_audio libs (Y:=chunk_record)
                       (super_2 self) k ex))
    as [e | [chunked sr]] eqn:Htfex.
  - rewrite !(yielded_bind_inl _ _ _ Htfex), !(outcome_bind_inl _ _ _ Htfex).
    split; reflexivity.
  - destruct (tfex_to_chunked_audio_inr libs (super_2 self) k ex _ Htfex)
      as [[mi sr'] Hrp].
    pose proof (read_and_preprocess_audio_silent libs (Y:=chunk_record)
                  (super_ (super_2 self)) k ex) as Hsil.
    unfold silent in Hsil.
    rewrite !(yielded_bind_inr _ _ _ Htfex), !(outcome_bind_inr _ _ _ Htfex).
    cbn beta iota zeta.
    destruct b, (_compute_embeddings_on_chunked_audio self);
      rewrite ?bind_ret_l, ?bind_assoc, ?(yielded_bind_inr _ _ _ Hrp),
        ?(outcome_bind_inr _ _ _ Hrp);
      cbn beta iota; rewrite ?bind_ret_l, ?Hsil; split; reflexivity.
Qed.

(** C10. In [ChunkAudioAndComputeEmbeddings.process] the model is called on
    the chunked audio whatever [compute_embeddings_on_chunked_audio] is.
    Two runs on the same record by DoFns that differ only in the flag
    yield the same records and end the same way; every model call in the
    log of a run, with either value of the flag, has the chunked audio as
    its input, so the input that is computed when the flag is false never
    reaches the model; and once chunking has succeeded and the module is
    loaded, the model is called exactly once. *)
Theorem model_call_on_chunked_audio self (k : string) (ex : Example) :
  (forall b1 b2,
     yielded (ChunkAudioAndComputeEmbeddings_process libs
                (with_compute_embeddings_on_chunked_audio b1 self) (k, ex))
     = yielded (ChunkAudioAndComputeEmbeddings_process libs
                  (with_compute_embeddings_on_chunked_audio b2 self) (k, ex))
     /\ outcome (ChunkAudioAndComputeEmbeddings_process libs
                   (with_compute_embeddings_on_chunked_audio b1 self)
                   (k, ex))
        = outcome (ChunkAudioAndComputeEmbeddings_process libs
                     (with_compute_embeddings_on_chunked_audio b2 self)
                     (k, ex)))
  /\ (forall b model_input,
        In (ModuleCall model_input)
          (log (ChunkAudioAndComputeEmbeddings_process libs
                  (with_compute_embeddings_on_chunked_audio b self)
                  (k, ex))) ->
        exists chunked sr,
          outcome (tfex_to_chunked_audio libs (Y:=chunk_record)
                     (super_2 self) k ex) = inr (chunked, sr)
          /\ model_input = expand_if_1d chunked)
  /\ (forall b chunked sr handle,
        outcome (tfex_to_chunked_audio libs (Y:=chunk_record)
                   (super_2 self) k ex) = inr (chunked, sr) ->
        post_setup_module (super_ (super_2 self)) = Some handle ->
        List.filter is_ModuleCall
          (log (ChunkAudioAndComputeEmbeddings_process libs
                  (with_compute_embeddings_on_chunked_audio b self)
                  (k, ex)))
        = [ModuleCall (expand_if_1d chunked)]).
Proof.
  split; [| split].
  - intros b1 b2.
    destruct (chunked_process_flag self b1 k ex) as [Hy1 Ho1].
    destruct (chunked_process_flag self b2 k ex) as [Hy2 Ho2].
    rewrite Hy1, Hy2, Ho1, Ho2. split; reflexivity.
  - intros b model_input Hin.
    assert (Hf : In (ModuleCall model_input)
                   (List.filter is_ModuleCall
                      (log (ChunkAudioAndComputeEmbeddings_process libs
                              (with_compute_embeddings_on_chunked_audio b
                                 self) (k, ex)))))
      by (apply List.filter_In; split; [exact Hin | reflexivity]).
    rewrite chunked_process_module_calls in Hf.
    cbn [with_compute_embeddings_on_chunked_audio super_2] in Hf.
    destruct (outcome (tfex_to_chunked_audio libs (super_2 self) k ex))
      as [e | [chunked sr]]; [destruct Hf |].
    destruct (post_setup_module (super_ (super_2 self))); [| destruct Hf].
    destruct Hf as [[= <-] | []]. exists chunked, sr. split; reflexivity.
  - intros b chunked sr handle Htfex Hhandle.
    rewrite chunked_process_module_calls.
    cbn [with_compute_embeddings_on_chunked_audio super_2].
    rewrite Htfex, Hhandle. reflexivity.
Qed.

End ChunkedModelCall.

(** * Further properties of the code *)

(** ** Generators and their loops *)

Section GeneratorLaws.
Context {E Y : Type}.

Lemma all_or_nothing_bind {A B} (m : run E Y A) (k : A -> run E Y B) :
  silent m ->
  (forall a, outcome m = inr a -> all_or_nothing (k a)) ->
  all_or_nothing (bind m k).
Proof.
  unfold all_or_nothing, silent, bind. intros Hm Hk e.
  destruct (outcome m) as [e' | a] eqn:Hout; simpl.
  - intros _. exact Hm.
  - intros He. rewrite Hm. simpl. exact (Hk a eq_refl e He).
Qed.

Lemma all_or_nothing_silent {A} (m : run E Y A) :
  silent m -> all_or_nothing m.
Proof. intros Hm e _. exact Hm. Qed.

Lemma all_or_nothing_returns {A} (m : run E Y A) (a : A) :
  outcome m = inr a -> all_or_nothing m.
Proof. intros Hm e He. rewrite Hm in He. discriminate He. Qed.

(** A loop that ended normally ran every iteration normally. *)
Lemma for_each_inr {A} (l : list A) (body : A -> run E Y unit) :
  outcome (for_each l body) = inr tt ->
  Forall (fun x => outcome (body x) = inr tt) l.
Proof.
  induction l as [| x l IH]; simpl; intros H; [constructor |].
  apply bind_inv_inr in H as ([] & Hx & Hl).
  constructor; [exact Hx | exact (IH Hl)].
Qed.

Lemma for_each_returns {A} (l : list A) (body : A -> run E Y unit) :
  Forall (fun x => outcome (body x) = inr tt) l ->
  outcome (for_each l body) = inr tt.
Proof.
  induction 1 as [| x l Hx _ IH]; simpl; [reflexivity |].
  rewrite (outcome_bind_inr _ _ _ Hx). exact IH.
Qed.

(** What a loop yields, when each iteration that returns has yielded one
    value related to its index by [R]. *)
Lemma for_each_yielded {A} (R : A -> Y -> Prop) (l : list A)
    (body : A -> run E Y unit) :
  (forall x, outcome (body x) = inr tt ->
             exists y, yielded (body x) = [y] /\ R x y) ->
  outcome (for_each l body) = inr tt ->
  Forall2 R l (yielded (for_each l body)).
Proof.
  intros Hbody. induction l as [| x l IH]; simpl; intros H; [constructor |].
  apply bind_inv_inr in H as ([] & Hx & Hl).
  rewrite (yielded_bind_inr _ _ _ Hx).
  destruct (Hbody x Hx) as (y & -> & Hy). simpl.
  constructor; [exact Hy | exact (IH Hl)].
Qed.

Lemma list_comp_inr {A B} (l : list A) (body : A -> run E Y B) (ys : list B) :
  outcome (list_comp l body) = inr ys ->
  Forall2 (fun x y => outcome (body x) = inr y) l ys.
Proof.
  revert ys. induction l as [| x l IH]; simpl; intros ys H.
  - injection H as <-. constructor.
  - apply bind_inv_inr in H as (y & Hy & H).
    apply bind_inv_inr in H as (ys' & Hys & H).
    injection H as <-. constructor; [exact Hy | exact (IH _ Hys)].
Qed.

End GeneratorLaws.

(** ** Running a generator on an example

    [bind] mentions its continuation three times, so evaluating a whole
    [process] run at once repeats work at every nesting level.  These
    tactics evaluate one action at a time instead. *)

Lemma yielded_bind_silent_inr {E Y A B} (m : run E Y A)
    (k : A -> run E Y B) (a : A) :
  outcome m = inr a -> yielded m = [] ->
  yielded (bind m k) = yielded (k a).
Proof.
  intros Ha Hy. rewrite (yielded_bind_inr _ _ _ Ha), Hy. reflexivity.
Qed.

Ltac step_outcome :=
  lazymatch goal with
  | |- context [outcome (bind ?m ?k)] =>
      let o := eval vm_compute in (outcome m) in
      lazymatch o with
      | inr ?a =>
          rewrite (outcome_bind_inr m k a ltac:(vm_compute; reflexivity))
      | inl ?e =>
          rewrite (outcome_bind_inl m k e ltac:(vm_compute; reflexivity))
      end; cbn beta iota zeta
  end.

Ltac step_yielded :=
  lazymatch goal with
  | |- context [yielded (bind ?m ?k)] =>
      let o := eval vm_compute in (outcome m) in
      lazymatch o with
      | inr ?a =>
          rewrite (yielded_bind_silent_inr m k a
                     ltac:(vm_compute; reflexivity)
                     ltac:(vm_compute; reflexivity))
      end; cbn beta iota zeta
  end.

(** ** Dictionaries of slices *)

Lemma py_dict_cons_lookup {V} (name1 : string) (v1 : V)
    (rest : list (string * V)) (name : string) :
  py_dict ((name1, v1) :: rest) !! name
  = match py_dict rest !! name with
    | Some v => Some v
    | None => if decide (name1 = name) then Some v1 else None
    end.
Proof.
  unfold py_dict. rewrite reverse_cons, list_to_map_app, lookup_union.
  change (list_to_map [(name1, v1)] : gmap string V)
    with (<[name1 := v1]> (∅ : gmap string V)).
  rewrite lookup_insert, lookup_empty.
  destruct (list_to_map (reverse rest) !! name) as [v |];
    case_decide; reflexivity.
Qed.

Section SliceDict.
Context {F Y : Type}.
Implicit Types (pairs : list (string * np.ndarray F)).

(** The dict comprehension of the chunk loop maps every name to slice [i]
    of the embedding of that name. *)
Lemma slice_dict_lookup i pairs (d0 d : gmap string (np.ndarray F)) :
  outcome (slice_dict (Y:=Y) i pairs d0) = inr d ->
  forall name,
    d !! name = match py_dict pairs !! name with
                | Some x => slice_opt x i
                | None => d0 !! name
                end.
Proof.
  revert d0. induction pairs as [| [name1 x1] rest IH]; intros d0 H name.
  - injection H as <-. reflexivity.
  - simpl in H. destruct (np.getitem x1 i) as [e | xi] eqn:Hget;
      [discriminate H |].
    rewrite bind_lift_inr in H. rewrite (IH _ H name), py_dict_cons_lookup.
    destruct (py_dict rest !! name) as [x |]; [reflexivity |].
    rewrite lookup_insert. case_decide; [| reflexivity].
    unfold slice_opt. rewrite Hget. reflexivity.
Qed.

(** The comprehension cannot fail when every embedding has more than [i]
    slices. *)
Lemma slice_dict_returns i pairs d0 (n : nat) :
  (i < n)%nat ->
  Forall (fun p => np.shape_at (snd p) 0 = inr n) pairs ->
  exists d, outcome (slice_dict (Y:=Y) i pairs d0) = inr d.
Proof.
  intros Hi Hall. revert d0.
  induction Hall as [| [name x] rest Hx _ IH]; intros d0.
  - exists d0. reflexivity.
  - simpl. unfold np.shape_at in Hx. simpl in Hx. unfold np.getitem.
    destruct (np.shape x) as [| n0 sh]; [discriminate Hx |].
    simpl in Hx. injection Hx as ->.
    apply Nat.ltb_lt in Hi. rewrite Hi, bind_lift_inr. apply IH.
Qed.

End SliceDict.

(** ** The chunked stage, record by record *)

Lemma assert_inr {E Y} (b : bool) :
  outcome (assert_ b : run E Y unit) = inr tt -> b = true.
Proof. destruct b; [reflexivity | discriminate]. Qed.

Lemma bind_inr_silent {E Y A B} (m : run E Y A) (k : A -> run E Y B) b :
  silent m ->
  outcome (bind m k) = inr b ->
  exists a, outcome m = inr a /\ outcome (k a) = inr b
            /\ yielded (bind m k) = yielded (k a).
Proof.
  intros Hm H. destruct (bind_inv_inr _ _ _ H) as (a & Ha & Hk).
  exists a. split; [exact Ha |]. split; [exact Hk |].
  rewrite (yielded_bind_inr _ _ _ Ha), Hm. reflexivity.
Qed.

Lemma Forall_combine_snd {A B} (P : B -> Prop) (l1 : list A) (l2 : list B) :
  Forall P l2 -> Forall (fun p => P (snd p)) (combine l1 l2).
Proof.
  intros H. revert l1. induction H as [| y l2 Hy _ IH]; intros [| x l1];
    simpl; constructor; [exact Hy | apply IH].
Qed.

Section ChunkedStage.
Context {F Mod Handle : Type}.
Variable libs : Imports F Handle.
Implicit Types (self : @ChunkAudioAndComputeEmbeddings F Mod Handle).

Local Abbreviation chunk_record :=
  (string * np.ndarray F * option bytes * option bytes
   * gmap string (np.ndarray F))%type.

(** What the assertions on an element of [embedding_3ds] establish. *)
Lemma check_embedding_3d_inr self (chnkd_audio x : np.ndarray F) :
  outcome (check_embedding_3d (Y:=chunk_record) self chnkd_audio x)
  = inr tt ->
  exists n,
    np.shape_at x 0 = inr n /\ np.shape_at chnkd_audio 0 = inr n
    /\ np.ndim x = 3%nat /\ np.arr_dtype x = np.float32
    /\ (truthy_opt_int (_embedding_len (super_2 self)) = true ->
        exists d, np.shape_at x 2 = inr d
                  /\ Z.of_nat d = default 0 (_embedding_len (super_2 self)))
    /\ (_average_over_time (super_ (super_2 self)) = true ->
        np.shape_at x 1 = inr 1%nat).
Proof.
  unfold check_embedding_3d. intros H.
  apply bind_inv_inr in H as ([] & Hdim & H). apply assert_inr in Hdim.
  apply bind_inv_inr in H as ([] & Hdt & H). apply assert_inr in Hdt.
  apply bind_inv_inr in H as (x0 & Hx0 & H).
  apply bind_inv_inr in H as (c0 & Hc0 & H).
  apply bind_inv_inr in H as ([] & Heq & H). apply assert_inr in Heq.
  apply bind_inv_inr in H as ([] & Hlen & H).
  apply Nat.eqb_eq in Hdim, Heq. apply dtype_eqb_eq in Hdt. subst c0.
  simpl in Hx0, Hc0.
  exists x0. repeat split; try assumption.
  - intros Htr. rewrite Htr in Hlen.
    apply bind_inv_inr in Hlen as (d & Hd & Hlen). apply assert_inr in Hlen.
    exists d. split; [exact Hd | apply Z.eqb_eq, Hlen].
  - intros Havg. rewrite Havg in H.
    apply bind_inv_inr in H as (x1 & Hx1 & H). apply assert_inr in H.
    apply Nat.eqb_eq in H. subst x1. exact Hx1.
Qed.

Lemma emit_chunks_returns (k : string) (chnkd_audio : np.ndarray F)
    (names : list string) (embedding_3ds : list (np.ndarray F))
    (label speaker_id : option bytes) (n : nat) :
  np.shape_at chnkd_audio 0 = inr n ->
  Forall (fun x => np.shape_at x 0 = inr n) embedding_3ds ->
  outcome (emit_chunks k chnkd_audio names embedding_3ds label speaker_id n)
  = inr tt.
Proof.
  intros Hn Hall. unfold emit_chunks. apply for_each_returns.
  apply Forall_forall. intros i Hi. apply elem_of_seq in Hi. cbn zeta.
  assert (Hget : exists a, np.getitem chnkd_audio i = inr a).
  { unfold np.shape_at in Hn. unfold np.getitem.
    destruct (np.shape chnkd_audio) as [| n0 sh]; [discriminate Hn |].
    simpl in Hn. injection Hn as ->.
    assert (Hlt : (i <? n)%nat = true) by (apply Nat.ltb_lt; lia).
    rewrite Hlt. eexists. reflexivity. }
  destruct Hget as [a Ha]. rewrite Ha, bind_lift_inr.
  destruct (slice_dict_returns (Y:=chunk_record) i
              (combine names embedding_3ds) ∅ n ltac:(lia)
              (Forall_combine_snd _ names embedding_3ds Hall))
    as [d Hd].
  rewrite (outcome_bind_inr _ _ _ Hd). reflexivity.
Qed.

Lemma emit_chunks_yielded (k : string) (chnkd_audio : np.ndarray F)
    (names : list string) (embedding_3ds : list (np.ndarray F))
    (label speaker_id : option bytes) (n : nat) :
  outcome (emit_chunks k chnkd_audio names embedding_3ds label speaker_id n)
  = inr tt ->
  Forall2 (is_chunk_record k chnkd_audio names embedding_3ds label
             speaker_id)
    (seq 0 n)
    (yielded (emit_chunks k chnkd_audio names embedding_3ds label
                speaker_id n)).
Proof.
  unfold emit_chunks. apply for_each_yielded. intros i H. cbn zeta in *.
  destruct (np.getitem chnkd_audio i) as [e | a] eqn:Ha;
    [discriminate H |].
  rewrite bind_lift_inr in *.
  apply bind_inv_inr in H as (d & Hd & _).
  rewrite (yielded_bind_inr _ _ _ Hd), (slice_dict_silent i _ ∅).
  eexists. split; [reflexivity |].
  exists a, d. split; [reflexivity |]. split; [exact Ha |].
  intros name. rewrite (slice_dict_lookup _ _ _ _ Hd name).
  destruct (py_dict _ !! name); [reflexivity | apply lookup_empty].
Qed.

Lemma get_post_setup_module_silent {Y}
    (base : @ComputeEmbeddingMapFn F Mod Handle) :
  silent (get_post_setup_module (Y:=Y) base).
Proof. unfold get_post_setup_module. destruct (post_setup_module base); reflexivity. Qed.

Lemma checked_first_axes self (chnkd_audio : np.ndarray F)
    (embedding_3ds : list (np.ndarray F)) (n : nat) :
  outcome (for_each embedding_3ds
             (check_embedding_3d (Y:=chunk_record) self chnkd_audio))
  = inr tt ->
  np.shape_at chnkd_audio 0 = inr n ->
  Forall (fun x => np.shape_at x 0 = inr n) embedding_3ds.
Proof.
  intros Hcheck Hn. apply for_each_inr in Hcheck.
  eapply Forall_impl; [exact Hcheck |]. intros x Hx. cbn beta in Hx.
  apply check_embedding_3d_inr in Hx as (n' & Hx0 & Hc0 & _).
  rewrite Hn in Hc0. injection Hc0 as <-. exact Hx0.
Qed.

(** X2. [ChunkAudioAndComputeEmbeddings.process] yields all of its chunk
    records or none: every check, the label and the speaker id come before
    the loop, and the loop cannot fail once the checks have passed. *)
Theorem chunked_stage_all_or_nothing self (k : string) (ex : Example) :
  all_or_nothing (ChunkAudioAndComputeEmbeddings_process libs self (k, ex)).
Proof.
  unfold ChunkAudioAndComputeEmbeddings_process.
  apply all_or_nothing_bind; [apply tfex_to_chunked_audio_silent |].
  intros [chunked sr] _. cbn zeta.
  apply all_or_nothing_bind.
  { destruct (_compute_embeddings_on_chunked_audio self);
      [apply silent_ret |].
    apply silent_bind; [apply read_and_preprocess_audio_silent |].
    intros [mi ?]. apply silent_ret. }
  intros _ _.
  apply all_or_nothing_bind; [apply get_post_setup_module_silent |].
  intros handle _.
  apply all_or_nothing_bind; [apply silent_tell |]. intros _ _.
  apply all_or_nothing_bind; [apply silent_lift |]. intros tf_out _.
  apply all_or_nothing_bind.
  { apply silent_list_comp. intros okey.
    destruct (tf_out !! okey); reflexivity. }
  intros cur_embs _.
  apply all_or_nothing_bind.
  { apply silent_for_each. intros emb.
    destruct (negb (np.ndim emb =? 3)%nat); reflexivity. }
  intros _ _.
  apply all_or_nothing_bind.
  { destruct (_average_over_time (super_ (super_2 self)));
      [| apply silent_ret].
    apply silent_list_comp. intros x. apply silent_lift. }
  intros embedding_3ds _.
  apply all_or_nothing_bind.
  { apply silent_for_each. intros x. apply check_embedding_3d_silent. }
  intros [] Hcheck.
  apply all_or_nothing_bind.
  { destruct (truthy_opt_str (_label_key self)); effect_free. }
  intros label _.
  apply all_or_nothing_bind.
  { destruct (truthy_opt_str (_speaker_id_key self)); effect_free. }
  intros speaker_id _.
  apply all_or_nothing_bind; [apply silent_lift |]. intros n Hn.
  apply (all_or_nothing_returns _ tt).
  apply (emit_chunks_returns k (expand_if_1d chunked)
           (_embedding_names (super_2 self)) embedding_3ds label
           speaker_id n Hn).
  exact (checked_first_axes self _ _ n Hcheck Hn).
Qed.

(** What a successful run of the chunked stage has computed. *)
Lemma chunked_stage_success_inv self (k : string) (ex : Example) :
  outcome (ChunkAudioAndComputeEmbeddings_process libs self (k, ex))
  = inr tt ->
  exists chunked sr handle tf_out cur_embs embedding_3ds label speaker_id n,
    outcome (tfex_to_chunked_audio libs (Y:=chunk_record) (super_2 self)
               k ex) = inr (chunked, sr)
    /\ post_setup_module (super_ (super_2 self)) = Some handle
    /\ _module_call_fn2 (super_2 self) (expand_if_1d chunked) handle
       = inr tf_out
    /\ Forall2 (fun okey emb => tf_out !! okey = Some emb)
         (_output_keys (super_2 self)) cur_embs
    /\ (if _average_over_time (super_ (super_2 self)) then
          Forall2 (fun emb x =>
                     np.mean (reduce_mean libs) emb 1 true = inr x)
            cur_embs embedding_3ds
        else embedding_3ds = cur_embs)
    /\ (if truthy_opt_str (_label_key self) then
          exists l, _get_label (default EmptyString (_label_key self)) ex
                    = inr l /\ label = Some l
        else label = None)
    /\ (if truthy_opt_str (_speaker_id_key self) then
          exists s, _get_speaker_id
                      (default EmptyString (_speaker_id_key self)) ex
                    = inr s /\ speaker_id = Some s
        else speaker_id = None)
    /\ np.shape_at (expand_if_1d chunked) 0 = inr n
    /\ Forall (fun x =>
                 outcome (check_embedding_3d (Y:=chunk_record) self
                            (expand_if_1d chunked) x) = inr tt)
         embedding_3ds
    /\ Forall2 (is_chunk_record k (expand_if_1d chunked)
                  (_embedding_names (super_2 self)) embedding_3ds label
                  speaker_id)
         (seq 0 n)
         (yielded (ChunkAudioAndComputeEmbeddings_process libs self
                     (k, ex))).
Proof.
  unfold ChunkAudioAndComputeEmbeddings_process. intros H.
  apply bind_inr_silent in H as ([chunked sr] & Htfex & H & ->);
    [| apply tfex_to_chunked_audio_silent].
  cbn zeta in *.
  apply bind_inr_silent in H as (model_input & _ & H & ->).
  2:{ destruct (_compute_embeddings_on_chunked_audio self);
        [apply silent_ret |].
      apply silent_bind; [apply read_and_preprocess_audio_silent |].
      intros [mi ?]. apply silent_ret. }
  apply bind_inr_silent in H as (handle & Hhandle & H & ->);
    [| apply get_post_setup_module_silent].
  apply bind_inr_silent in H as ([] & _ & H & ->); [| apply silent_tell].
  apply bind_inr_silent in H as (tf_out & Hcall & H & ->);
    [| apply silent_lift].
  apply bind_inr_silent in H as (cur_embs & Hembs & H & ->).
  2:{ apply silent_list_comp. intros okey.
      destruct (tf_out !! okey); reflexivity. }
  apply bind_inr_silent in H as ([] & _ & H & ->).
  2:{ apply silent_for_each. intros emb.
      destruct (negb (np.ndim emb =? 3)%nat); reflexivity. }
  apply bind_inr_silent in H as (embedding_3ds & Havg & H & ->).
  2:{ destruct (_average_over_time (super_ (super_2 self)));
        [| apply silent_ret].
      apply silent_list_comp. intros x. apply silent_lift. }
  apply bind_inr_silent in H as ([] & Hcheck & H & ->).
  2:{ apply silent_for_each. intros x. apply check_embedding_3d_silent. }
  apply bind_inr_silent in H as (label & Hlabel & H & ->).
  2:{ destruct (truthy_opt_str (_label_key self)); effect_free. }
  apply bind_inr_silent in H as (speaker_id & Hspeaker & H & ->).
  2:{ destruct (truthy_opt_str (_speaker_id_key self)); effect_free. }
  apply bind_inr_silent in H as (n & Hn & H & ->); [| apply silent_lift].
  exists chunked, sr, handle, tf_out, cur_embs, embedding_3ds, label,
    speaker_id, n.
  split; [exact Htfex |].
  split.
  { unfold get_post_setup_module in Hhandle.
    destruct (post_setup_module (super_ (super_2 self)));
      [injection Hhandle as <-; reflexivity | discriminate Hhandle]. }
  split; [exact Hcall |].
  split.
  { apply list_comp_inr in Hembs. eapply Forall2_impl; [exact Hembs |].
    intros okey emb Hk. cbn beta in Hk.
    destruct (tf_out !! okey); [injection Hk as <-; reflexivity |
                                 discriminate Hk]. }
  split.
  { destruct (_average_over_time (super_ (super_2 self))).
    - apply list_comp_inr in Havg. exact Havg.
    - injection Havg as <-. reflexivity. }
  split.
  { destruct (truthy_opt_str (_label_key self)).
    - apply bind_inv_inr in Hlabel as (l & Hl & Hlabel).
      injection Hlabel as <-. exists l. split; [exact Hl | reflexivity].
    - injection Hlabel as <-. reflexivity. }
  split.
  { destruct (truthy_opt_str (_speaker_id_key self)).
    - apply bind_inv_inr in Hspeaker as (s & Hs & Hspeaker).
      injection Hspeaker as <-. exists s. split; [exact Hs | reflexivity].
    - injection Hspeaker as <-. reflexivity. }
  split; [exact Hn |].
  split; [exact (for_each_inr _ _ Hcheck) |].
  exact (emit_chunks_yielded k (expand_if_1d chunked)
           (_embedding_names (super_2 self)) embedding_3ds label
           speaker_id n H).
Qed.


End ChunkedStage.

(** [str] is injective on integers: [int(str(n)) == n]. *)
Lemma py_str_int_inj (n m : Z) : py_str_int n = py_str_int m -> n = m.
Proof.
  unfold py_str_int. intros H.
  assert (Hnz : forall z, Z.to_int z <> Decimal.Pos Decimal.Nil
                          /\ Z.to_int z <> Decimal.Neg Decimal.Nil).
  { intros [| p | p]; simpl; split; try discriminate;
      intros [= Hp]; exact (Stdlib.Numbers.DecimalPos.Unsigned.to_uint_nonnil p Hp). }
  apply (f_equal NilZero.int_of_string) in H.
  rewrite !NilZero.isi in H by apply Hnz.
  injection H as H. apply Stdlib.Numbers.DecimalZ.to_int_inj, H.
Qed.

Lemma chunk_key_inj (k : string) (i j : nat) :
  k +:+ "_" +:+ py_str_int (Z.of_nat i)
  = k +:+ "_" +:+ py_str_int (Z.of_nat j) ->
  i = j.
Proof.
  intros H. apply (inj (String.app k)) in H.
  apply (inj (String.app "_")) in H.
  apply py_str_int_inj in H. lia.
Qed.

Lemma getitem_inr {F} (x v : np.ndarray F) (i : nat) :
  np.getitem x i = inr v ->
  exists n0, np.shape x = n0 :: np.shape v /\ (i < n0)%nat
             /\ np.arr_dtype v = np.arr_dtype x.
Proof.
  unfold np.getitem. destruct (np.shape x) as [| n0 sh]; [discriminate |].
  destruct (i <? n0)%nat eqn:Hi; [| discriminate].
  intros [= <-]. exists n0. apply Nat.ltb_lt in Hi. repeat split. exact Hi.
Qed.

Lemma py_dict_lookup_elem {V} (pairs : list (string * V)) name v :
  py_dict pairs !! name = Some v -> (name, v) ∈ pairs.
Proof.
  unfold py_dict. intros H. apply elem_of_list_to_map_2 in H.
  apply elem_of_reverse, H.
Qed.


Section ChunkedStageOutput.
Context {F Mod Handle : Type}.
Variable libs : Imports F Handle.
Implicit Types (self : @ChunkAudioAndComputeEmbeddings F Mod Handle).

Local Abbreviation chunk_record :=
  (string * np.ndarray F * option bytes * option bytes
   * gmap string (np.ndarray F))%type.

Lemma chunk_records_keys (k : string) (chnkd_audio : np.ndarray F)
    (names : list string) (embedding_3ds : list (np.ndarray F))
    (label speaker_id : option bytes) (l : list nat)
    (ys : list chunk_record) :
  Forall2 (is_chunk_record k chnkd_audio names embedding_3ds label
             speaker_id) l ys ->
  map (record_key (F:=F)) ys
  = map (fun i => k +:+ "_" +:+ py_str_int (Z.of_nat i)) l.
Proof.
  induction 1 as [| i y l ys (a & d & -> & _) _ IH]; [reflexivity |].
  simpl. rewrite IH. reflexivity.
Qed.

(** X4. The records that [ChunkAudioAndComputeEmbeddings.process] yields
    for one input have pairwise distinct keys. *)
Theorem chunked_stage_keys_distinct self (k : string) (ex : Example) :
  NoDup (map record_key
           (yielded (ChunkAudioAndComputeEmbeddings_process libs self
                       (k, ex)))).
Proof.
  destruct (outcome (ChunkAudioAndComputeEmbeddings_process libs self
                       (k, ex))) as [e | []] eqn:Hout.
  - rewrite (chunked_stage_all_or_nothing libs self k ex e Hout).
    constructor.
  - destruct (chunked_stage_success_inv libs self k ex Hout)
      as (chunked & sr & handle & tf_out & cur_embs & embedding_3ds & label
          & speaker_id & n & _ & _ & _ & _ & _ & _ & _ & _ & _ & Hy).
    rewrite (chunk_records_keys _ _ _ _ _ _ _ _ Hy).
    apply (NoDup_fmap_2_strong
             (fun i => k +:+ "_" +:+ py_str_int (Z.of_nat i))).
    + intros i j _ _ Hij. exact (chunk_key_inj k i j Hij).
    + apply NoDup_seq.
Qed.

(** X5. Every embedding in a record that
    [ChunkAudioAndComputeEmbeddings.process] yields is a 2-D [float32]
    array; its first axis is 1 when [average_over_time] is set, and its
    last axis equals the embedding length when one is configured. *)
Theorem chunked_stage_emitted_embeddings self (k : string) (ex : Example)
    (y : chunk_record) (name : string) (v : np.ndarray F) :
  y ∈ yielded (ChunkAudioAndComputeEmbeddings_process libs self (k, ex)) ->
  snd y !! name = Some v ->
  np.ndim v = 2%nat
  /\ np.arr_dtype v = np.float32
  /\ (_average_over_time (super_ (super_2 self)) = true ->
      np.shape_at v 0 = inr 1%nat)
  /\ (truthy_opt_int (_embedding_len (super_2 self)) = true ->
      exists d, np.shape_at v 1 = inr d
                /\ Z.of_nat d = default 0 (_embedding_len (super_2 self))).
Proof.
  intros Hy Hv.
  destruct (outcome (ChunkAudioAndComputeEmbeddings_process libs self
                       (k, ex))) as [e | []] eqn:Hout.
  { rewrite (chunked_stage_all_or_nothing libs self k ex e Hout) in Hy.
    apply elem_of_nil in Hy. contradiction. }
  destruct (chunked_stage_success_inv libs self k ex Hout)
    as (chunked & sr & handle & tf_out & cur_embs & embedding_3ds & label
        & speaker_id & n & _ & _ & _ & _ & _ & _ & _ & _ & Hcheck & Hys).
  apply list_elem_of_lookup in Hy as [i Hi].
  destruct (Forall2_lookup_r _ _ _ _ _ Hys Hi)
    as (i' & _ & a & d & -> & _ & Hd).
  simpl in Hv. rewrite Hd in Hv.
  destruct (py_dict _ !! name) as [x |] eqn:Hx; [| discriminate Hv].
  apply py_dict_lookup_elem, list_elem_of_In, in_combine_r in Hx.
  apply list_elem_of_In in Hx.
  rewrite Forall_forall in Hcheck. specialize (Hcheck x Hx).
  apply check_embedding_3d_inr in Hcheck
    as (n' & _ & _ & Hdim & Hdt & Hlen & Havg).
  unfold slice_opt in Hv.
  destruct (np.getitem x i') as [e | v'] eqn:Hget; [discriminate Hv |].
  injection Hv as ->.
  apply getitem_inr in Hget as (n0 & Hshape & _ & Hdtv).
  unfold np.ndim, np.shape_at in *. rewrite Hshape in *. simpl in *.
  repeat split.
  - lia.
  - congruence.
  - exact Havg.
  - exact Hlen.
Qed.

End ChunkedStageOutput.

Lemma chunked_stage_emitted_embeddings_witness :
  np.ndim (np.mk_ndarray np.float32 [1; 1]%nat [3]) = 2%nat
  /\ np.arr_dtype (np.mk_ndarray np.float32 [1; 1]%nat [3]) = np.float32.
Proof.
  set (y := ("k_1"%string, np.mk_ndarray np.float32 [2%nat] [3; 4],
             Some "3"%string, Some "spk"%string,
             <["e1"%string := np.mk_ndarray np.float32 [1; 1]%nat [3]]>
               (∅ : gmap string (np.ndarray Z)))).
  assert (Hy :
    y ∈ yielded (ChunkAudioAndComputeEmbeddings_process Fixtures.libs
                   (Fixtures.stage_C true (Some 2) false)
                   ("k"%string, Fixtures.ex1))).
  { apply list_elem_of_lookup. exists 1%nat.
    unfold ChunkAudioAndComputeEmbeddings_process.
    repeat step_yielded. vm_compute. reflexivity. }
  assert (Hv : snd y !! "e1"%string
               = Some (np.mk_ndarray np.float32 [1; 1]%nat [3]))
    by (vm_compute; reflexivity).
  pose proof (chunked_stage_emitted_embeddings Fixtures.libs
                (Fixtures.stage_C true (Some 2) false) "k" Fixtures.ex1
                y "e1" (np.mk_ndarray np.float32 [1; 1]%nat [3])
                Hy Hv) as (Hdim & Hdt & _).
  split; [exact Hdim | exact Hdt].
Defined.


Section ChunkedStageRecords.
Context {F Mod Handle : Type}.
Variable libs : Imports F Handle.
Implicit Types (self : @ChunkAudioAndComputeEmbeddings F Mod Handle).

Local Abbreviation chunk_record :=
  (string * np.ndarray F * option bytes * option bytes
   * gmap string (np.ndarray F))%type.


End ChunkedStageRecords.


(** ** The multi-embedding stage *)

Lemma mean_keepdims_first_axis {F} (reduce_mean : list F -> F)
    (a v : np.ndarray F) :
  np.mean reduce_mean a 0 true = inr v ->
  np.shape v = 1%nat :: tl (np.shape a)
  /\ np.arr_dtype v = np.mean_dtype (np.arr_dtype a).
Proof.
  unfold np.mean. destruct (np.shape a) as [| n sh] eqn:Hsh;
    [discriminate |].
  simpl. intros [= <-]. split; reflexivity.
Qed.

Lemma mean_first_axis {F} (reduce_mean : list F -> F)
    (a v : np.ndarray F) :
  np.mean reduce_mean a 0 false = inr v ->
  np.shape v = tl (np.shape a)
  /\ np.arr_dtype v = np.mean_dtype (np.arr_dtype a).
Proof.
  unfold np.mean. destruct (np.shape a) as [| n sh] eqn:Hsh;
    [discriminate |].
  simpl. intros [= <-]. split; reflexivity.
Qed.

(** The shape of a reduced model output. *)
Lemma chunk_then_time_mean_shape {F} (reduce_mean : list F -> F)
    (cur_emb v : np.ndarray F) :
  np.ndim cur_emb = 3%nat ->
  np.arr_dtype cur_emb = np.float32 ->
  chunk_then_time_mean reduce_mean cur_emb = Some v ->
  exists chunks time dim,
    np.shape cur_emb = [chunks; time; dim]
    /\ np.shape v = [1%nat; dim]
    /\ np.arr_dtype v = np.float32.
Proof.
  unfold chunk_then_time_mean, np.ndim. intros Hdim Hdt H.
  destruct (np.mean reduce_mean cur_emb 0 false) as [e | e1] eqn:H1;
    [discriminate H |].
  destruct (np.mean reduce_mean e1 0 true) as [e | e2] eqn:H2;
    [discriminate H |].
  injection H as ->.
  apply mean_first_axis in H1 as [Hs1 Hd1].
  apply mean_keepdims_first_axis in H2 as [Hs2 Hd2].
  destruct (np.shape cur_emb) as [| c [| t [| d [| ? ?]]]];
    try discriminate Hdim.
  exists c, t, d. simpl in *. rewrite Hs2, Hs1, Hd2, Hd1, Hdt.
  repeat split.
Qed.

(** A reduction of a 3-D array cannot fail. *)
Lemma chunk_then_time_mean_defined {F} (reduce_mean : list F -> F)
    (cur_emb : np.ndarray F) :
  np.ndim cur_emb = 3%nat ->
  exists e1 e2,
    np.mean reduce_mean cur_emb 0 false = inr e1
    /\ np.mean reduce_mean e1 0 true = inr e2
    /\ np.ndim e2 = 2%nat
    /\ np.shape_at e2 0 = inr 1%nat
    /\ np.arr_dtype e2
       = np.mean_dtype (np.mean_dtype (np.arr_dtype cur_emb)).
Proof.
  unfold np.ndim. intros Hdim.
  destruct (np.shape cur_emb) as [| c [| t [| d [| ? ?]]]] eqn:Hsh;
    try discriminate Hdim.
  destruct (np.mean reduce_mean cur_emb 0 false) as [e | e1] eqn:H1.
  { unfold np.mean in H1. rewrite Hsh in H1. discriminate H1. }
  destruct (mean_first_axis _ _ _ H1) as [Hs1 Hd1].
  rewrite Hsh in Hs1. simpl in Hs1.
  destruct (np.mean reduce_mean e1 0 true) as [e | e2] eqn:H2.
  { unfold np.mean in H2. rewrite Hs1 in H2. discriminate H2. }
  destruct (mean_keepdims_first_axis _ _ _ H2) as [Hs2 Hd2].
  rewrite Hs1 in Hs2. simpl in Hs2.
  exists e1, e2. split; [reflexivity |]. split; [exact H2 |].
  unfold np.shape_at. rewrite Hs2, Hd2, Hd1. repeat split.
Qed.

Section MultiStage.
Context {F Mod Handle : Type}.
Variable libs : Imports F Handle.
Implicit Types (self : @ComputeMultipleEmbeddingsFromSingleModel F Mod Handle).

Local Abbreviation multi_record :=
  (string * Example * gmap string (np.ndarray F))%type.




Lemma lift_inr {E Y A} (r : exn + A) (a : A) :
  outcome (lift r : run E Y A) = inr a -> r = inr a.
Proof. exact (fun H => H). Qed.

Lemma embeddings_loop_silent {Y} self (tf_out : gmap string (np.ndarray F))
    (pairs : list (string * string)) (out_dict : gmap string (np.ndarray F)) :
  silent (embeddings_loop libs (Y:=Y) self tf_out pairs out_dict).
Proof.
  revert out_dict.
  induction pairs as [| [name output_key] rest IH]; intros out_dict;
    [reflexivity |].
  cbn [embeddings_loop]. effect_free. apply IH.
Qed.


(** X6. [ComputeMultipleEmbeddingsFromSingleModel.process] yields nothing
    when it ends in an exception: its only [yield] is its last
    statement. *)
Theorem multi_stage_all_or_nothing self (k : string) (ex : Example) :
  all_or_nothing
    (ComputeMultipleEmbeddingsFromSingleModel_process libs self (k, ex)).
Proof.
  unfold ComputeMultipleEmbeddingsFromSingleModel_process.
  apply all_or_nothing_bind; [apply tfex_to_chunked_audio_silent |].
  intros [model_input sr] _. cbn zeta.
  apply all_or_nothing_bind; [apply get_post_setup_module_silent |].
  intros handle _.
  apply all_or_nothing_bind; [apply silent_tell |]. intros _ _.
  apply all_or_nothing_bind; [apply silent_lift |]. intros tf_out _.
  apply all_or_nothing_bind; [apply embeddings_loop_silent |].
  intros out_dict _. apply (all_or_nothing_returns _ tt). reflexivity.
Qed.


End MultiStage.



(** ** The single-embedding stage *)

Section SingleStage.
Context {F Mod Handle : Type}.
Variable libs : Imports F Handle.
Implicit Types (self : @ComputeEmbeddingMapFn F Mod Handle).

Local Abbreviation single_record := (string * np.ndarray F)%type.

(** X7. [ComputeEmbeddingMapFn.process] yields nothing when it ends in an
    exception, whatever the exception is: its only [yield] is its last
    statement. *)
Theorem single_stage_all_or_nothing self (k : string) (ex : Example) :
  all_or_nothing (ComputeEmbeddingMapFn_process libs self (k, ex)).
Proof.
  unfold ComputeEmbeddingMapFn_process.
  apply all_or_nothing_bind; [apply read_and_preprocess_audio_silent |].
  intros [model_input sr] _.
  apply all_or_nothing_bind; [apply get_post_setup_module_silent |].
  intros handle _.
  apply all_or_nothing_bind; [apply silent_tell |]. intros _ _.
  apply all_or_nothing_bind; [apply silent_lift |].
  intros [embedding_2d | type_name] _;
    [| apply all_or_nothing_silent; reflexivity].
  destruct (negb (np.ndim embedding_2d =? 2)%nat);
    [apply all_or_nothing_silent; reflexivity |].
  destruct (negb (np.dtype_eqb (np.arr_dtype embedding_2d) np.float32));
    [apply all_or_nothing_silent; reflexivity |].
  apply all_or_nothing_bind; [apply silent_tell |]. intros _ _.
  apply all_or_nothing_bind; [apply silent_lift |]. intros n0 _.
  apply all_or_nothing_bind; [apply silent_tell |]. intros _ _.
  apply all_or_nothing_bind.
  { destruct (_average_over_time self);
      [apply silent_lift | apply silent_ret]. }
  intros embedding _. apply (all_or_nothing_returns _ tt). reflexivity.
Qed.

(** X8. A successful run of [ComputeEmbeddingMapFn.process] yields exactly
    one record under the input key.  The model returned a 2-D [float32]
    array; without [average_over_time] the record holds that array
    unchanged, with it the mean over axis 0, of shape [(1, dim)]. *)
Theorem single_stage_emits_one_embedding self (k : string) (ex : Example) :
  outcome (ComputeEmbeddingMapFn_process libs self (k, ex)) = inr tt ->
  exists model_input sr handle embedding_2d embedding,
    outcome (read_and_preprocess_audio libs (Y:=single_record) self k ex)
    = inr (model_input, sr)
    /\ post_setup_module self = Some handle
    /\ _module_call_fn self model_input sr handle (_output_key self)
         (_name self) = inr (PyNdarray embedding_2d)
    /\ np.ndim embedding_2d = 2%nat
    /\ np.arr_dtype embedding_2d = np.float32
    /\ yielded (ComputeEmbeddingMapFn_process libs self (k, ex))
       = [(k, embedding)]
    /\ (if _average_over_time self then
          np.mean (reduce_mean libs) embedding_2d 0 true = inr embedding
          /\ exists time dim,
               np.shape embedding_2d = [time; dim]
               /\ np.shape embedding = [1%nat; dim]
               /\ np.arr_dtype embedding = np.float32
        else embedding = embedding_2d).
Proof.
  unfold ComputeEmbeddingMapFn_process. intros H.
  apply bind_inr_silent in H as ([model_input sr] & Hrp & H & ->);
    [| apply read_and_preprocess_audio_silent].
  apply bind_inr_silent in H as (handle & Hhandle & H & ->);
    [| apply get_post_setup_module_silent].
  apply bind_inr_silent in H as ([] & _ & H & ->); [| apply silent_tell].
  apply bind_inr_silent in H as (returned & Hcall & H & ->);
    [| apply silent_lift].
  destruct returned as [embedding_2d | type_name]; [| discriminate H].
  destruct (negb (np.ndim embedding_2d =? 2)%nat) eqn:Hdim;
    [discriminate H |].
  destruct (negb (np.dtype_eqb (np.arr_dtype embedding_2d) np.float32))
    eqn:Hdt; [discriminate H |].
  apply negb_false_iff in Hdim, Hdt.
  apply Nat.eqb_eq in Hdim. apply dtype_eqb_eq in Hdt.
  apply bind_inr_silent in H as ([] & _ & H & ->); [| apply silent_tell].
  apply bind_inr_silent in H as (n0 & _ & H & ->); [| apply silent_lift].
  apply bind_inr_silent in H as ([] & _ & H & ->); [| apply silent_tell].
  apply bind_inr_silent in H as (embedding & Hemb & H & ->).
  2:{ destruct (_average_over_time self);
        [apply silent_lift | apply silent_ret]. }
  exists model_input, sr, handle, embedding_2d, embedding.
  split; [exact Hrp |]. split.
  { unfold get_post_setup_module in Hhandle.
    destruct (post_setup_module self);
      [injection Hhandle as <-; reflexivity | discriminate Hhandle]. }
  split; [exact Hcall |]. split; [exact Hdim |]. split; [exact Hdt |].
  split; [reflexivity |].
  destruct (_average_over_time self).
  - apply lift_inr in Hemb. split; [exact Hemb |].
    apply mean_keepdims_first_axis in Hemb as [Hs Hd].
    unfold np.ndim in Hdim.
    destruct (np.shape embedding_2d) as [| t [| d [| ? ?]]];
      try discriminate Hdim.
    exists t, d. rewrite Hs, Hd, Hdt. repeat split.
  - injection Hemb as <-. reflexivity.
Qed.

End SingleStage.

Lemma single_stage_emits_one_embedding_witness :
  yielded (ComputeEmbeddingMapFn_process Fixtures.libs
             (Fixtures.stage_A None (Some 16000) true None np.float32)
             ("k"%string, Fixtures.ex1))
  = [("k"%string, np.mk_ndarray np.float32 [1; 2]%nat [2; 3])].
Proof.
  assert (H : outcome (ComputeEmbeddingMapFn_process Fixtures.libs
                         (Fixtures.stage_A None (Some 16000) true None
                            np.float32)
                         ("k"%string, Fixtures.ex1)) = inr tt)
    by (unfold ComputeEmbeddingMapFn_process;
        repeat step_outcome; vm_compute; reflexivity).
  destruct (single_stage_emits_one_embedding Fixtures.libs
              (Fixtures.stage_A None (Some 16000) true None np.float32)
              "k" Fixtures.ex1 H)
    as (model_input & sr & handle & e2d & emb & Hrp & _ & Hcall & _ & _
        & Hy & Hmean & _).
  rewrite Hy. injection Hcall as <-. 
  assert (Hm : np.mean (reduce_mean Fixtures.libs)
                 (np.mk_ndarray np.float32 [2; 2]%nat [1; 2; 3; 4]) 0 true
               = inr (np.mk_ndarray np.float32 [1; 2]%nat [2; 3]))
    by (vm_compute; reflexivity).
  rewrite Hm in Hmean. injection Hmean as <-. reflexivity.
Defined.

(** ** Audio preprocessing *)

Section Preprocessing.
Context {F Mod Handle Y : Type}.
Variable libs : Imports F Handle.
Implicit Types (self : @ComputeEmbeddingMapFn F Mod Handle).

(** X9. Whenever [read_and_preprocess_audio] returns, the sample rate it
    returns is the target rate, whatever rate the record had; and
    [tfex_to_chunked_audio] passes that rate on unchanged. *)
Theorem preprocessing_returns_target_rate self
    (multi : @ComputeMultipleEmbeddingsFromSingleModel F Mod Handle)
    (k : string) (ex : Example) :
  (forall model_input sr,
      outcome (read_and_preprocess_audio libs (Y:=Y) self k ex)
      = inr (model_input, sr) ->
      sr = _target_sample_rate self)
  /\ (forall chunked sr,
        outcome (tfex_to_chunked_audio libs (Y:=Y) multi k ex)
        = inr (chunked, sr) ->
        sr = _target_sample_rate (super_ multi)).
Proof.
  assert (Hrp : forall self model_input sr,
             outcome (read_and_preprocess_audio libs (Y:=Y) self k ex)
             = inr (model_input, sr) ->
             sr = _target_sample_rate self).
  { clear self. intros self model_input sr H.
    unfold read_and_preprocess_audio in H.
    apply bind_inv_inr in H as (audio & _ & H).
    apply bind_inv_inr in H as (rate & _ & H).
    apply bind_inv_inr in H as ([audio' rate'] & Hres & H).
    apply bind_inv_inr in H as (mi & _ & H).
    injection H as _ <-.
    destruct (negb (rate =? _target_sample_rate self)) eqn:Hne.
    - apply bind_inv_inr in Hres as (a & _ & Hres).
      injection Hres as _ <-. reflexivity.
    - injection Hres as _ <-.
      apply negb_false_iff, Z.eqb_eq in Hne. exact Hne. }
  split; [apply Hrp |].
  intros chunked sr H. unfold tfex_to_chunked_audio in H.
  apply bind_inv_inr in H as ([mi sr0] & H0 & H).
  apply bind_inv_inr in H as (mi' & _ & H).
  injection H as _ <-. exact (Hrp _ _ _ H0).
Qed.

(** X10. When the rate of the record differs from the target rate,
    [read_and_preprocess_audio] is: extract the audio, resample it once
    from the record's rate to the target rate, project the resampled audio
    at the target rate.  The log holds exactly one resampler call, on the
    extracted audio. *)
Theorem differing_rate_resamples_once self (k : string) (ex : Example)
    (audio : np.ndarray F) (rate : Z) :
  outcome (_read_audio_from_tfexample libs (Y:=Y) self ex k
             (_normalize_to_pm_one self)) = inr audio ->
  outcome (_read_sample_rate_from_tfexample (Y:=Y) self ex) = inr rate ->
  rate <> _target_sample_rate self ->
  read_and_preprocess_audio libs (Y:=Y) self k ex
  = (let* extracted :=
       _read_audio_from_tfexample libs self ex k
         (_normalize_to_pm_one self) in
     let* resampled :=
       resample libs self extracted rate (_target_sample_rate self) in
     let* model_input :=
       _audio_to_features self resampled (_target_sample_rate self) in
     ret (model_input, _target_sample_rate self))
  /\ List.filter is_ResampleCall
       (log (read_and_preprocess_audio libs (Y:=Y) self k ex))
     = [ResampleCall audio rate (_target_sample_rate self)].
Proof.
  intros Haudio Hrate Hne.
  assert (Heq : read_and_preprocess_audio libs (Y:=Y) self k ex
                = (let* extracted :=
                     _read_audio_from_tfexample libs self ex k
                       (_normalize_to_pm_one self) in
                   let* resampled :=
                     resample libs self extracted rate
                       (_target_sample_rate self) in
                   let* model_input :=
                     _audio_to_features self resampled
                       (_target_sample_rate self) in
                   ret (model_input, _target_sample_rate self))).
  { unfold read_and_preprocess_audio. apply bind_congr. intros a _.
    rewrite (run_pure _ rate (read_sample_rate_log self ex)
               (read_sample_rate_silent self ex) Hrate).
    rewrite bind_ret_l.
    assert (Hb : negb (rate =? _target_sample_rate self) = true)
      by (apply negb_true_iff, Z.eqb_neq; exact Hne).
    rewrite Hb, bind_assoc. apply bind_congr. intros a' _.
    rewrite bind_ret_l. reflexivity. }
  split; [exact Heq |].
  rewrite Heq, (log_bind_inr _ _ _ Haudio), List.filter_app.
  rewrite (read_audio_no_resample libs self ex k _).
  unfold resample. rewrite bind_assoc, bind_tell.
  cbn [log List.filter is_ResampleCall app]. f_equal.
  apply (log_without_bind is_ResampleCall); [apply log_without_lift |].
  intros a'. apply log_without_bind;
    [apply audio_to_features_no_resample | intros mi; reflexivity].
Qed.

(** X11. [_read_audio_from_tfexample] fails without touching the metrics
    when the audio feature is missing, and when the extracted audio is
    empty; when it returns, the audio is what the extraction helper gave,
    it is 1-D and non-empty, and its length has been recorded once. *)
Theorem read_audio_checks self (ex : Example) (k : string)
    (normalize_to_pm_one : bool) :
  let result :=
    _read_audio_from_tfexample libs (Y:=Y) self ex k normalize_to_pm_one in
  (ex !! _audio_key self = None ->
   result = raise (ValueError "Audio key not found: "))
  /\ (forall audio,
        is_Some (ex !! _audio_key self) ->
        tfexample_audio_to_npfloat32 libs ex (_audio_key self)
          normalize_to_pm_one k = inr audio ->
        np.ndim audio = 1%nat -> np.size audio = 0%nat ->
        result = raise (ValueError "No audio found: "))
  /\ (forall audio,
        outcome result = inr audio ->
        tfexample_audio_to_npfloat32 libs ex (_audio_key self)
          normalize_to_pm_one k = inr audio
        /\ np.ndim audio = 1%nat
        /\ np.size audio <> 0%nat
        /\ log result
           = [MetricsDistributionUpdate "computed-embedding-audio" "length"
                (Z.of_nat (np.size audio))]).
Proof.
  cbn zeta. unfold _read_audio_from_tfexample. repeat split.
  - intros ->. reflexivity.
  - intros audio [feat ->] -> Hdim Hsize.
    rewrite bind_lift_inr, Hdim, Hsize. reflexivity.
  - destruct (ex !! _audio_key self); [| discriminate H].
    apply bind_inv_inr in H as (a & Ha & H). apply lift_inr in Ha.
    apply bind_inv_inr in H as ([] & _ & H).
    destruct (np.size a =? 0)%nat; [discriminate H |].
    apply bind_inv_inr in H as ([] & _ & H). injection H as <-. exact Ha.
  - destruct (ex !! _audio_key self); [| discriminate H].
    apply bind_inv_inr in H as (a & Ha & H).
    apply bind_inv_inr in H as ([] & Hdim & H). apply assert_inr in Hdim.
    destruct (np.size a =? 0)%nat; [discriminate H |].
    apply bind_inv_inr in H as ([] & _ & H). injection H as <-.
    apply Nat.eqb_eq, Hdim.
  - destruct (ex !! _audio_key self); [| discriminate H].
    apply bind_inv_inr in H as (a & Ha & H).
    apply bind_inv_inr in H as ([] & _ & H).
    destruct (np.size a =? 0)%nat eqn:Hsize; [discriminate H |].
    apply bind_inv_inr in H as ([] & _ & H). injection H as <-.
    apply Nat.eqb_neq, Hsize.
  - destruct (ex !! _audio_key self); [| discriminate H].
    destruct (tfexample_audio_to_npfloat32 libs ex (_audio_key self)
                normalize_to_pm_one k) as [e | a]; [discriminate H |].
    rewrite bind_lift_inr in *.
    destruct (np.ndim a =? 1)%nat; [| discriminate H].
    unfold assert_ in *. rewrite bind_ret_l in *.
    destruct (np.size a =? 0)%nat; [discriminate H |].
    injection H as <-. reflexivity.
Qed.

End Preprocessing.

Lemma differing_rate_resamples_once_witness :
  List.filter is_ResampleCall
    (log (read_and_preprocess_audio Fixtures.libs (Y:=unit)
            (Fixtures.stage_A None (Some 8000) true None np.float32)
            "k" Fixtures.ex1))
  = [ResampleCall (np.mk_ndarray np.float32 [5%nat] [1; 2; 3; 4; 5])
       8000 16000].
Proof.
  assert (Ha : outcome (_read_audio_from_tfexample Fixtures.libs (Y:=unit)
                          (Fixtures.stage_A None (Some 8000) true None
                             np.float32)
                          Fixtures.ex1 "k" true)
               = inr (np.mk_ndarray np.float32 [5%nat] [1; 2; 3; 4; 5]))
    by (vm_compute; reflexivity).
  assert (Hr : outcome (_read_sample_rate_from_tfexample (Y:=unit)
                          (Fixtures.stage_A None (Some 8000) true None
                             np.float32)
                          Fixtures.ex1) = inr 8000)
    by (vm_compute; reflexivity).
  assert (Hne : 8000 <> 16000) by lia.
  exact (proj2 (differing_rate_resamples_once (Y:=unit) Fixtures.libs
                  (Fixtures.stage_A None (Some 8000) true None np.float32)
                  "k" Fixtures.ex1 _ 8000 Ha Hr Hne)).
Defined.

(** ** Feature projection with a custom function *)

(** X12. With a custom feature function, [_audio_to_features] returns
    exactly when the function returns a [float32] array, and returns that
    array as it is: a configured minimum length plays no part.  Any other
    array raises the dtype error and any other object the type error. *)
Theorem custom_feature_fn_contract {F Mod Handle Y : Type}
    (self : @ComputeEmbeddingMapFn F Mod Handle)
    (feature_fn : np.ndarray F -> Z -> exn + pyobj F)
    (audio : np.ndarray F) (sample_rate : Z) :
  _feature_fn self = Some feature_fn ->
  let result := _audio_to_features (Y:=Y) self audio sample_rate in
  (forall out,
      outcome result = inr out
      <-> feature_fn audio sample_rate = inr (PyNdarray out)
          /\ np.arr_dtype out = np.float32)
  /\ (forall a,
        feature_fn audio sample_rate = inr (PyNdarray a) ->
        np.arr_dtype a <> np.float32 ->
        outcome result = inl (ValueError "Should be float32, was: "))
  /\ (forall type_name,
        feature_fn audio sample_rate = inr (PyOther type_name) ->
        outcome result = inl (ValueError "Expected ndarray, got "))
  /\ log result = [FeatureFnCall audio sample_rate].
Proof.
  intros Hfn. cbn zeta. unfold _audio_to_features. rewrite Hfn.
  rewrite bind_tell. cbn [outcome log].
  destruct (feature_fn audio sample_rate) as [e | [a | type_name]].
  - repeat split; try discriminate. intros [H _]. discriminate H.
  - rewrite bind_lift_inr.
    destruct (np.dtype_eqb (np.arr_dtype a) np.float32) eqn:Hdt;
      cbn [negb].
    + apply dtype_eqb_eq in Hdt. repeat split; try discriminate.
      * injection H as <-. reflexivity.
      * injection H as <-. exact Hdt.
      * intros [[= <-] _]. reflexivity.
      * intros a' [= <-] Hne. contradiction.
    + assert (Hne : np.arr_dtype a <> np.float32).
      { intros H. apply dtype_eqb_eq in H. congruence. }
      repeat split; try discriminate; try reflexivity.
      intros [[= <-] H]. contradiction.
  - rewrite bind_lift_inr. repeat split; try discriminate.
    intros [H _]. discriminate H.
Qed.

(** ** Speaker ids *)

(** X13. [_get_speaker_id] fails with the missing-key error when the field
    is absent and returns the first byte string of a byte-encoded field,
    which must not be empty.  Unlike [_get_label] it reads only the byte
    representation: a field holding integers, floats or nothing raises
    [IndexError].  Whatever it returns is non-empty. *)
Theorem get_speaker_id_spec (speaker_id_key : string) (ex : Example) :
  (ex !! speaker_id_key = None ->
   _get_speaker_id speaker_id_key ex
   = inl (ValueError "speaker_id key not found: "))
  /\ (forall s rest,
        ex !! speaker_id_key = Some (bytes_list (s :: rest)) ->
        _get_speaker_id speaker_id_key ex
        = if truthy_str s then inr s else inl AssertionError)
  /\ (forall feat,
        ex !! speaker_id_key = Some feat ->
        bytes_list_value feat = [] ->
        _get_speaker_id speaker_id_key ex = inl IndexError)
  /\ (forall ns,
        ex !! speaker_id_key = Some (int64_list ns) ->
        _get_speaker_id speaker_id_key ex = inl IndexError)
  /\ (forall s, _get_speaker_id speaker_id_key ex = inr s ->
                s <> EmptyString).
Proof.
  unfold _get_speaker_id. repeat split.
  - intros ->. reflexivity.
  - intros s rest ->. reflexivity.
  - intros feat -> ->. reflexivity.
  - intros ns ->. reflexivity.
  - intros s. destruct (ex !! speaker_id_key) as [feat |]; [| discriminate].
    destruct (bytes_list_value feat) as [| s0 ?]; [discriminate |].
    destruct (truthy_str s0) eqn:Hs; [| discriminate].
    intros [= <-]. apply truthy_str_nonempty, Hs.
Qed.

Lemma custom_feature_fn_contract_witness :
  outcome (_audio_to_features (Y:=unit) MoreFixtures.stage_with_feature_fn
             (np.mk_ndarray np.float32 [3%nat] [1; 2; 3]) 16000)
  = inr (np.mk_ndarray np.float32 [3%nat] [2; 4; 6]).
Proof.
  apply (proj1 (custom_feature_fn_contract (Y:=unit)
                  MoreFixtures.stage_with_feature_fn
                  MoreFixtures.feature_stub
                  (np.mk_ndarray np.float32 [3%nat] [1; 2; 3]) 16000
                  eq_refl)).
  split; reflexivity.
Defined.

(** ** Construction and setup *)

Section Construction.
Context {F Mod Handle : Type}.
Variable libs : Imports F Handle.
Variables (name : string) (module : Mod) (output_key : pykey)
          (audio_key : string) (sample_rate_key : option string)
          (sample_rate : option Z) (average_over_time : bool)
          (feature_fn : option (np.ndarray F -> Z -> exn + pyobj F))
          (normalize_to_pm_one : bool) (model_input_min_length : option Z)
          (target_sample_rate : Z) (setup_fn : Mod -> Handle)
          (embedding_names : list string) (chunk_len : option Z)
          (embedding_length : option Z)
          (label_key speaker_id_key : option string)
          (module_call_fn2 :
             np.ndarray F -> Handle -> exn + gmap string (np.ndarray F))
          (compute_embeddings_on_chunked_audio : bool).

(** X14. The constructors of the two multi-embedding DoFns accept only a
    list as [output_key]: with a valid sample-rate configuration, a list
    is stored as the output keys and the given model-call function is the
    one installed, and a single key fails the [isinstance] assertion.  No
    constructor runs the setup function. *)
Theorem multi_constructors_need_key_list :
  xorb (is_None sample_rate_key) (is_None sample_rate) = true ->
  (forall keys, output_key = KeyList keys ->
     exists b c,
       ComputeMultipleEmbeddingsFromSingleModel__init__ libs name module
         output_key audio_key sample_rate_key sample_rate average_over_time
         feature_fn normalize_to_pm_one model_input_min_length
         target_sample_rate setup_fn embedding_names chunk_len
         embedding_length module_call_fn2 = inr b
       /\ ChunkAudioAndComputeEmbeddings__init__ libs name module
            output_key audio_key sample_rate_key sample_rate
            average_over_time feature_fn normalize_to_pm_one
            model_input_min_length target_sample_rate setup_fn
            embedding_names chunk_len embedding_length label_key
            speaker_id_key module_call_fn2
            compute_embeddings_on_chunked_audio = inr c
       /\ super_2 c = b
       /\ _output_keys b = keys
       /\ _module_call_fn2 b = module_call_fn2
       /\ post_setup_module (super_ b) = None)
  /\ ((forall keys, output_key <> KeyList keys) ->
      ComputeMultipleEmbeddingsFromSingleModel__init__ libs name module
        output_key audio_key sample_rate_key sample_rate average_over_time
        feature_fn normalize_to_pm_one model_input_min_length
        target_sample_rate setup_fn embedding_names chunk_len
        embedding_length module_call_fn2 = inl AssertionError
      /\ ChunkAudioAndComputeEmbeddings__init__ libs name module
           output_key audio_key sample_rate_key sample_rate
           average_over_time feature_fn normalize_to_pm_one
           model_input_min_length target_sample_rate setup_fn
           embedding_names chunk_len embedding_length label_key
           speaker_id_key module_call_fn2
           compute_embeddings_on_chunked_audio = inl AssertionError).
Proof.
  intros Hx.
  unfold ChunkAudioAndComputeEmbeddings__init__,
    ComputeMultipleEmbeddingsFromSingleModel__init__,
    ComputeEmbeddingMapFn__init__.
  rewrite Hx. cbn [negb _output_key]. split.
  - intros keys ->. eexists. eexists. repeat split.
  - intros Hnot. destruct output_key as [s | i | keys];
      [split; reflexivity | split; reflexivity |].
    exfalso. exact (Hnot keys eq_refl).
Qed.

End Construction.

Lemma multi_constructors_need_key_list_witness :
  ComputeMultipleEmbeddingsFromSingleModel__init__ Fixtures.libs "trill" tt
    (KeyStr "embedding") "audio" None (Some 16000) true None true None
    16000 (fun _ => tt) ["e1"%string] None None Fixtures.multi_stub
  = inl AssertionError.
Proof.
  apply (proj2 (multi_constructors_need_key_list (F:=Z) Fixtures.libs
                  "trill" tt (KeyStr "embedding") "audio" None
                  (Some 16000) true None true None 16000 (fun _ => tt)
                  ["e1"%string] None None None None Fixtures.multi_stub
                  true eq_refl)).
  intros keys. discriminate.
Defined.

Section BeforeSetup.
Context {F Mod Handle : Type}.
Variable libs : Imports F Handle.




End BeforeSetup.

(** ** Chunking switched off *)

Lemma bind_pair_ret {E Y A B} (m : run E Y (A * B)) :
  bind m (fun x => let '(a, b) := x in bind (ret a) (fun a' => ret (a', b)))
  = m.
Proof.
  destruct m as [lg ys [e | [a b]]]; unfold bind; simpl; [reflexivity |].
  rewrite !app_nil_r. reflexivity.
Qed.

(** X16. Without a chunk length ([None] or 0) [tfex_to_chunked_audio] is
    [read_and_preprocess_audio]: the model input is left as it is.  With a
    chunk length, a model input without a first axis (a 0-d array from a
    custom feature function) raises [IndexError]. *)
Theorem chunking_switched_off {F Mod Handle Y : Type}
    (libs : Imports F Handle)
    (self : @ComputeMultipleEmbeddingsFromSingleModel F Mod Handle)
    (k : string) (ex : Example) :
  (truthy_opt_int (_chunk_len self) = false ->
   tfex_to_chunked_audio libs (Y:=Y) self k ex
   = read_and_preprocess_audio libs (Y:=Y) (super_ self) k ex)
  /\ (forall model_input sr,
        truthy_opt_int (_chunk_len self) = true ->
        outcome (read_and_preprocess_audio libs (Y:=Y) (super_ self) k ex)
        = inr (model_input, sr) ->
        np.shape model_input = [] ->
        outcome (tfex_to_chunked_audio libs (Y:=Y) self k ex)
        = inl IndexError).
Proof.
  unfold tfex_to_chunked_audio. split.
  - intros ->. apply bind_pair_ret.
  - intros model_input sr -> Hrp Hshape.
    rewrite (outcome_bind_inr _ _ _ Hrp). unfold np.shape_at.
    rewrite Hshape. reflexivity.
Qed.
